(** * Result Email Sender (app.py): a shallow embedding and its properties

    The program is one Streamlit script.  Each interaction of the operator
    re-executes the script from top to bottom; one such execution is modelled
    by [script], a computation in a small state-and-exception monad whose
    state holds the display events emitted so far and the outside world
    (the mail transport).

    Conventions.
    - A Python [str] is a Rocq [string] holding its UTF-8 bytes.  The
      character classes of the e-mail pattern are ASCII only and the order
      of code points is the bytewise lexicographic order of UTF-8, so
      matching and sorting agree with Python's.
    - An exception is represented by its text [str(e)], the only thing the
      program ever reads from it.
    - The pandas behaviour embedded here is that of pandas 1.x and 2.x. *)

From Stdlib Require Import String Ascii List ZArith Lia.
From Stdlib Require Import Floats.SpecFloat.
From stdpp Require Import gmap strings list sorting.

Open Scope string_scope.
Open Scope list_scope.
Open Scope nat_scope.
Open Scope stdpp_scope.

(** ** Scalars and frames *)

(** A value stored in a frame.  [read_csv] is called with a dtype map that
    makes the seven text columns hold [str] objects and the two numeric
    columns hold 64-bit floats; an empty field is the float NaN in either
    kind of column. *)
Inductive cell : Type :=
  | Str (s : string)
  | Num (x : spec_float).

Definition NaN : cell := Num S754_nan.

Global Instance spec_float_eq_dec : EqDecision spec_float.
Proof. solve_decision. Defined.

Global Instance cell_eq_dec : EqDecision cell.
Proof. solve_decision. Defined.

(** The reading of a cell of a text column (dtype [str]): a [str], or
    missing.  The only float such a column can hold is NaN. *)
Definition text_of (c : cell) : option string :=
  match c with
  | Str s => Some s
  | Num _ => None
  end.

(** A row is a label-indexed series; a label that is one of the frame's
    columns and has no entry stands for NaN. *)
Record DataFrame : Type := {
  columns : list string;
  rows : list (gmap string cell)
}.

Definition value_at (r : gmap string cell) (c : string) : cell :=
  default NaN (r !! c).

(** [len(df)] *)
Definition len (df : DataFrame) : nat := length (rows df).

(** [df.head()]: the first five rows. *)
Definition df_head (df : DataFrame) : DataFrame :=
  {| columns := columns df; rows := take 5 (rows df) |}.

(** [series.nunique()] on a text column: the number of distinct values,
    NaN not counted. *)
Definition nunique (col : list cell) : nat :=
  length (remove_dups (omap text_of col)).

(** ** Regular expressions, as far as the e-mail pattern needs them *)

Module Re.

Inductive class_item : Type :=
  | Range (lo hi : ascii)
  | Ch (c : ascii).

Inductive node : Type :=
  | Bol                                     (* ^ *)
  | Eol                                     (* $ *)
  | Lit (c : ascii)                         (* an escaped or plain character *)
  | Rep (k : list class_item) (min : nat).  (* [k]{min,}; + is {1,} *)

Definition in_item (c : ascii) (i : class_item) : bool :=
  match i with
  | Range lo hi =>
      (nat_of_ascii lo <=? nat_of_ascii c)%nat && (nat_of_ascii c <=? nat_of_ascii hi)%nat
  | Ch c' => Ascii.eqb c c'
  end.

Definition in_class (k : list class_item) (c : ascii) : bool :=
  existsb (in_item c) k.

(** [k*] followed by [cont]: greedy, giving back characters one at a
    time until the continuation accepts. *)
Fixpoint many (k : ascii → bool) (cont : string → bool) (s : string) : bool :=
  match s with
  | String c s' => (k c && many k cont s') || cont s
  | EmptyString => cont s
  end.

Fixpoint at_least (n : nat) (k : ascii → bool) (cont : string → bool)
    (s : string) : bool :=
  match n with
  | O => many k cont s
  | S n' =>
      match s with
      | String c s' => k c && at_least n' k cont s'
      | EmptyString => false
      end
  end.

(** [$] without MULTILINE: at the end of the string, or just before a
    newline that is the last character. *)
Definition at_eol (s : string) : bool :=
  match s with
  | EmptyString => true
  | String c EmptyString => Ascii.eqb c "010"
  | _ => false
  end.

(** Does the pattern match at the current position?  [bol] tells whether
    that position is the start of the subject.  As with [re.match], the
    match need not reach the end of the subject unless the pattern says
    so. *)
Fixpoint matches (r : list node) (bol : bool) (s : string) : bool :=
  match r with
  | [] => true
  | Bol :: r' => bol && matches r' bol s
  | Eol :: r' => at_eol s && matches r' bol s
  | Lit c :: r' =>
      match s with
      | String c' s' => Ascii.eqb c' c && matches r' false s'
      | EmptyString => false
      end
  | Rep k min :: r' =>
      at_least min (in_class k)
        (λ s', matches r' (bol && (String.length s' =? String.length s)%nat) s') s
  end.

(** [re.match(pattern, s) is not None] *)
Definition re_match (r : list node) (s : string) : bool := matches r true s.

End Re.

(** The pattern of line 122:
    [^[a-zA-Z0-9._%+-]+@[a-zA-Z0-9.-]+\.[a-zA-Z]{2,}$] *)
Definition email_pattern : list Re.node :=
  [ Re.Bol;
    Re.Rep [Re.Range "a" "z"; Re.Range "A" "Z"; Re.Range "0" "9";
            Re.Ch "."; Re.Ch "_"; Re.Ch "%"; Re.Ch "+"; Re.Ch "-"] 1;
    Re.Lit "@";
    Re.Rep [Re.Range "a" "z"; Re.Range "A" "Z"; Re.Range "0" "9";
            Re.Ch "."; Re.Ch "-"] 1;
    Re.Lit ".";
    Re.Rep [Re.Range "a" "z"; Re.Range "A" "Z"] 2;
    Re.Eol ].

(** [series.str.match(pat)]: element-wise, NaN where the value is missing. *)
Definition str_match (pat : list Re.node) (col : list cell) : list (option bool) :=
  map (λ c, Re.re_match pat <$> text_of c) col.

(** ** The outside world and the display *)

(** What [send_email] hands to the mail libraries. *)
Record Envelope : Type := {
  msg_from : option string;
  msg_to : cell;
  msg_subject : string;
  msg_text : string;
  msg_html : string
}.

(** The library calls of [send_email] that can fail: building the MIME
    parts, opening the connection, the TLS upgrade, authentication, and the
    submission (which also serialises the message). *)
Inductive stage : Type := Attach | Connect | StartTLS | Login | Sendmail.

(** The mail transport is outside the program.  [fault n st m] tells
    whether, for the [n]-th message built in this run, the library call
    [st] raises, and with which text.  [messages] counts the messages built
    so far and [outbox] lists the submitted ones, oldest first. *)
Record World : Type := {
  SENDER_EMAIL : option string;
  SENDER_PASSWORD : option string;
  messages : nat;
  outbox : list Envelope;
  fault : nat → stage → Envelope → option string
}.

(** What the operator did to trigger this execution of the script.
    Decoding the CSV text is pandas's work: an uploaded file is represented
    by what [pd.read_csv] makes of it under the dtype map of lines 94-104,
    a frame or an exception. *)
Inductive upload : Type :=
  | Unreadable (e : string)   (* pd.read_csv raises e *)
  | Parsed (df : DataFrame).  (* pd.read_csv returns df *)

Record Interaction : Type := {
  uploaded_file : option upload;
  clicked : string → bool     (* by label: does st.button return True? *)
}.

(** Display calls, in the order the script makes them.  Texts built from
    numbers or sets are kept structured. *)
Inductive event : Type :=
  | st_title (s : string)
  | st_write (s : string)
  | st_file_uploader (label : string)
  | st_dataframe (df : DataFrame)
  | st_info_totals (records unique : nat)
      (* Total records: {records}, Unique students: {unique} *)
  | st_error_missing (missing : gset string)
      (* Missing required columns: {', '.join(missing)}; a Python set has
         no fixed iteration order, so the event carries the set *)
  | st_warning (s : string)
  | st_button (label : string)
  | st_progress_start
      (* st.progress(0) *)
  | st_progress (completed total : nat)
      (* progress_bar.progress(completed / total) *)
  | st_warning_multiple (student_name : string) (parent_email : cell)
      (* Multiple parent emails found for {student_name}. Using: {parent_email} *)
  | st_success_sent (success_count : nat)
      (* Sent {success_count} emails successfully! *)
  | st_error (s : string)
  | st_write_failed (to_email : cell) (error : string)
      (* Failed to send to {to_email}: {error} *)
  | st_error_processing (e : string).
      (* Error processing file: {e} *)

Record State : Type := {
  ui : list event;            (* oldest first *)
  world : World;
  input : Interaction
}.

(** ** Computations: state, exceptions and [st.stop()] *)

Inductive result (A : Type) : Type :=
  | Val (a : A)
  | Raise (e : string)   (* an Exception *)
  | Halt.                (* st.stop(): not an Exception, no handler of the script catches it *)
Arguments Val {A} a.
Arguments Raise {A} e.
Arguments Halt {A}.

Definition M (A : Type) : Type := State → result A * State.

Definition ret {A} (a : A) : M A := λ s, (Val a, s).

Definition bind {A B} (m : M A) (f : A → M B) : M B :=
  λ s, match m s with
       | (Val a, s') => f a s'
       | (Raise e, s') => (Raise e, s')
       | (Halt, s') => (Halt, s')
       end.

Definition raise {A} (e : string) : M A := λ s, (Raise e, s).

Definition st_stop {A} : M A := λ s, (Halt, s).

(** [try: body except Exception as e: handler(str(e))] *)
Definition try_except {A} (body : M A) (handler : string → M A) : M A :=
  λ s, match body s with
       | (Raise e, s') => handler e s'
       | other => other
       end.

Declare Scope py_scope.
Delimit Scope py_scope with py.
Notation "'let*' x ':=' m 'in' f" := (bind m (λ x, f))
  (at level 10, x name, m at level 100, f at level 200) : py_scope.
Notation "m >> f" := (bind m (λ _, f))
  (at level 100, f at level 200, right associativity) : py_scope.
Open Scope py_scope.

Definition emit (e : event) : M unit :=
  λ s, (Val tt, {| ui := ui s ++ [e]; world := world s; input := input s |}).

Definition button (label : string) : M bool :=
  λ s, (Val (clicked (input s) label),
        {| ui := ui s ++ [st_button label]; world := world s; input := input s |}).

Definition file_uploader (label : string) : M (option upload) :=
  λ s, (Val (uploaded_file (input s)),
        {| ui := ui s ++ [st_file_uploader label]; world := world s; input := input s |}).

Definition read_csv (f : upload) : M DataFrame :=
  match f with
  | Unreadable e => raise e
  | Parsed df => ret df
  end.

(** [str(KeyError(label))]: the label between single quotes (the labels
    the program asks for are fixed and contain no quote). *)
Definition key_error (label : string) : string := "'" +:+ label +:+ "'".

(** [df[label]] *)
Definition getcol (df : DataFrame) (label : string) : M (list cell) :=
  if decide (label ∈ columns df)
  then ret (map (λ r, value_at r label) (rows df))
  else raise (key_error label).

(** [row[label]] for a row yielded by [df.iterrows()] *)
Definition getitem (df : DataFrame) (row : gmap string cell) (label : string) : M cell :=
  if decide (label ∈ columns df)
  then ret (value_at row label)
  else raise (key_error label).

(** [series.iloc[0]] *)
Definition iloc0 (col : list cell) : M cell :=
  match col with
  | c :: _ => ret c
  | [] => raise "single positional indexer is out-of-bounds"
  end.

(** ** The mail sender (lines 16-82) *)

Record Outcome : Type := {
  status : string;
  to_email : cell;
  error : option string
}.

Definition set_world (s : State) (w : World) : State :=
  {| ui := ui s; world := w; input := input s |}.

Definition count_message (w : World) : World :=
  {| SENDER_EMAIL := SENDER_EMAIL w; SENDER_PASSWORD := SENDER_PASSWORD w;
     messages := S (messages w); outbox := outbox w; fault := fault w |}.

Definition store (w : World) (m : Envelope) : World :=
  {| SENDER_EMAIL := SENDER_EMAIL w; SENDER_PASSWORD := SENDER_PASSWORD w;
     messages := messages w; outbox := outbox w ++ [m]; fault := fault w |}.

(** [MIMEMultipart('alternative')]: a new message; its number is the
    count of those built before. *)
Definition new_message : M nat :=
  λ s, (Val (messages (world s)), set_world s (count_message (world s))).

Definition sender : M (option string) := λ s, (Val (SENDER_EMAIL (world s)), s).

(** A library call: raises when the world says so. *)
Definition call (n : nat) (st : stage) (m : Envelope) : M unit :=
  λ s, match fault (world s) n st m with
       | Some e => (Raise e, s)
       | None => (Val tt, s)
       end.

(** The effect of a submission that went through. *)
Definition submitted (m : Envelope) : M unit :=
  λ s, (Val tt, set_world s (store (world s) m)).

Section Rendering.

(** [str(x)] for a float is Python's; it is a parameter here. *)
Context (float_str : spec_float → string).

(** What an f-string puts for [{v}]. *)
Definition format (v : cell) : string :=
  match v with
  | Str s => s
  | Num x => float_str x
  end.

(** Lines 25-48. *)
Definition html_open (student_name : string) : string :=
  "
        <html>
        <head>
        <style>
            table { border-collapse: collapse; width: 100%; margin: 20px 0; }
            th, td { border: 1px solid #ddd; padding: 8px; text-align: left; }
            th { background-color: #f2f2f2; }
            tr:nth-child(even) { background-color: #f9f9f9; }
        </style>
        </head>
        <body>
            <p>Dear Parent,</p>
            <p>Your child, <strong>" +:+ student_name +:+ "</strong>'s results for 2 Year - 3 Semester are out:</p>
            <table>
                <tr>
                    <th>Course Code</th>
                    <th>Course Name</th>
                    <th>Month Year</th>
                    <th>Grade</th>
                    <th>Grade Points</th>
                    <th>Credits</th>
                    <th>Result</th>
                </tr>
        ".

(** Lines 52-61. *)
Definition html_row (c1 c2 c3 c4 c5 c6 c7 : cell) : string :=
  "
                <tr>
                    <td>" +:+ format c1 +:+
  "</td>
                    <td>" +:+ format c2 +:+
  "</td>
                    <td>" +:+ format c3 +:+
  "</td>
                    <td>" +:+ format c4 +:+
  "</td>
                    <td>" +:+ format c5 +:+
  "</td>
                    <td>" +:+ format c6 +:+
  "</td>
                    <td>" +:+ format c7 +:+
  "</td>
                </tr>".

(** Lines 63-68. *)
Definition html_close : string :=
  "
            </table>
            <p>Thank you,<br>School Administration</p>
        </body>
        </html>
        ".

(** The loop of lines 51-61, on the rows still to come. *)
Fixpoint html_rows (results_df : DataFrame) (todo : list (gmap string cell))
    (html_content : string) : M string :=
  match todo with
  | [] => ret html_content
  | row :: todo' =>
      let* c1 := getitem results_df row "Course Code" in
      let* c2 := getitem results_df row "Course Name" in
      let* c3 := getitem results_df row "Month Year" in
      let* c4 := getitem results_df row "Grade" in
      let* c5 := getitem results_df row "Grade Points" in
      let* c6 := getitem results_df row "Credits" in
      let* c7 := getitem results_df row "Result" in
      html_rows results_df todo' (html_content +:+ html_row c1 c2 c3 c4 c5 c6 c7)
  end.

(** [html_content] as it stands at line 68. *)
Definition html_content (student_name : string) (results_df : DataFrame) : M string :=
  let* html := html_rows results_df (rows results_df) (html_open student_name) in
  ret (html +:+ html_close).

(** Line 71. *)
Definition text_content (student_name : string) : string :=
  "Dear Parent,

Your child, " +:+ student_name +:+ "'s results for 2 Year - 3 Semester are available. Please view this email in HTML format for better formatting.

Thank you,
School Administration".

Definition subject (student_name : string) : string :=
  "Result Update for " +:+ student_name +:+ " - 2 Year 3 Semester".

(** Lines 19-80, the body of the [try]. *)
Definition send_email_body (to_email : cell) (student_name : string)
    (results_df : DataFrame) : M Outcome :=
  let* n := new_message in
  let* from := sender in
  let* html := html_content student_name results_df in
  let msg := {| msg_from := from; msg_to := to_email;
                msg_subject := subject student_name;
                msg_text := text_content student_name;
                msg_html := html |} in
  call n Attach msg >>
  call n Connect msg >>
  call n StartTLS msg >>
  call n Login msg >>
  call n Sendmail msg >>
  submitted msg >>
  ret {| status := "success"; to_email := to_email; error := None |}.

Definition send_email (to_email : cell) (student_name : string)
    (results_df : DataFrame) : M Outcome :=
  try_except
    (send_email_body to_email student_name results_df)
    (λ e, ret {| status := "error"; to_email := to_email; error := Some e |}).

End Rendering.

(** ** The script (lines 84-160) *)

(** [required_columns], lines 114-115. *)
Definition required_columns : gset string :=
  {[ "student_name"; "parent_email"; "Course Code"; "Course Name";
     "Month Year"; "Grade"; "Grade Points"; "Credits"; "Result" ]}.

(** Lines 116-119. *)
Definition validate_columns (df : DataFrame) : M unit :=
  let missing_columns := required_columns ∖ list_to_set (columns df) in
  if decide (missing_columns ≠ ∅)
  then emit (st_error_missing missing_columns) >> st_stop
  else ret tt.

(** [~mask]: on a boolean series the element-wise negation; a series
    holding a NaN is not boolean and [~] raises on the float (the text is
    that of the TypeError for a column that also holds addresses). *)
Definition invert (mask : list (option bool)) : M (list bool) :=
  if decide (None ∈ mask)
  then raise "bad operand type for unary ~: 'float'"
  else ret (map (λ b, negb (default false b)) mask).

(** [df[mask]] for a boolean mask aligned with the rows. *)
Definition select (df : DataFrame) (mask : list bool) : DataFrame :=
  {| columns := columns df;
     rows := map fst (filter (λ p, snd p = true) (zip (rows df) mask)) |}.

(** [df[[l1, l2]]] *)
Definition project (df : DataFrame) (labels : list string) : M DataFrame :=
  if decide (labels ⊆ columns df)
  then ret {| columns := labels;
              rows := map (filter (λ kv, fst kv ∈ labels)) (rows df) |}
  else raise "not in index".

(** [df.empty] *)
Definition empty (df : DataFrame) : bool :=
  bool_decide (rows df = [] ∨ columns df = []).

(** Line 122. *)
Definition invalid_emails (df : DataFrame) : M DataFrame :=
  let* emails := getcol df "parent_email" in
  let* mask := invert (str_match email_pattern emails) in
  ret (select df mask).

(** Lines 122-129. *)
Definition validate_emails (df : DataFrame) : M unit :=
  let* invalid := invalid_emails df in
  if negb (empty invalid) then
    emit (st_warning "Invalid email addresses found:") >>
    let* shown := project invalid ["student_name"; "parent_email"] in
    emit (st_dataframe shown) >>
    let* go := button "Continue anyway" in
    if go then ret tt else st_stop
  else ret tt.

(** The keys of [df.groupby(label)]: the distinct values of the column,
    missing ones dropped, in ascending order ([sort=True] and
    [dropna=True] are the defaults). *)
Definition group_keys (col : list cell) : list string :=
  merge_sort String.le (remove_dups (omap text_of col)).

(** The group of one key: the rows that carry it, in their order in [df]. *)
Definition group (df : DataFrame) (label key : string) : DataFrame :=
  {| columns := columns df;
     rows := filter (λ r, text_of (value_at r label) = Some key) (rows df) |}.

(** [df.groupby(label)], as the sequence of pairs its iteration yields. *)
Definition groupby (df : DataFrame) (label : string) : M (list (string * DataFrame)) :=
  let* col := getcol df label in
  ret (map (λ key, (key, group df label key)) (group_keys col)).

(** [progress_bar.progress(completed / total)]: the division raises on a zero
    divisor and the widget refuses a value above 1. *)
Definition progress (completed total : nat) : M unit :=
  if decide (total = 0) then raise "division by zero"
  else if decide (completed ≤ total)%nat then emit (st_progress completed total)
  else raise "Progress Value has invalid value [0.0, 1.0]".

Section Script.

Context (float_str : spec_float → string).

(** The loop of lines 140-147, on the groups still to come; [idx] is the
    index [enumerate] gives to the first of them. *)
Fixpoint send_loop (total_students idx : nat) (todo : list (string * DataFrame))
    (results : list Outcome) : M (list Outcome) :=
  match todo with
  | [] => ret results
  | (student_name, student_results) :: todo' =>
      let* emails := getcol student_results "parent_email" in
      let* parent_email := iloc0 emails in
      let* emails' := getcol student_results "parent_email" in
      (if decide (1 < nunique emails')%nat
       then emit (st_warning_multiple student_name parent_email)
       else ret tt) >>
      let* result := send_email float_str parent_email student_name student_results in
      let results := results ++ [result] in
      progress (idx + 1) total_students >>
      send_loop total_students (S idx) todo' results
  end.

(** Lines 136-147: the value of [results] when the loop is over. *)
Definition send_all (grouped : list (string * DataFrame)) : M (list Outcome) :=
  let results := [] in
  emit st_progress_start >>
  let total_students := length grouped in
  send_loop total_students 0 grouped results.

(** Lines 156-157. *)
Fixpoint write_failures (error_results : list Outcome) : M unit :=
  match error_results with
  | [] => ret tt
  | result :: rest =>
      match error result with
      | Some e => emit (st_write_failed (to_email result) e) >> write_failures rest
      | None => raise (key_error "error")
      end
  end.

(** Lines 150-157. *)
Definition display_results (results : list Outcome) : M unit :=
  let success_count :=
    sum_list (map (λ _, 1) (filter (λ r, status r = "success") results)) in
  let error_results := filter (λ r, status r = "error") results in
  emit (st_success_sent success_count) >>
  match error_results with
  | [] => ret tt
  | _ :: _ =>
      emit (st_error "Some emails failed to send:") >>
      write_failures error_results
  end.

(** Lines 135-157. *)
Definition send_emails_handler (grouped : list (string * DataFrame)) : M unit :=
  let* results := send_all grouped in
  display_results results.

(** Lines 92-157, the body of the outer [try]. *)
Definition process (f : upload) : M unit :=
  let* df := read_csv f in
  emit (st_write "Preview of uploaded data (first 5 rows):") >>
  emit (st_dataframe (df_head df)) >>
  let* names := getcol df "student_name" in
  emit (st_info_totals (len df) (nunique names)) >>
  validate_columns df >>
  validate_emails df >>
  let* grouped := groupby df "student_name" in
  let* go := button "Send Emails" in
  if go then send_emails_handler grouped else ret tt.

(** One execution of the script. *)
Definition script : M unit :=
  emit (st_title "Result Email Sender") >>
  emit (st_write "Upload a CSV file with student results to send emails to parents.") >>
  let* uploaded_file := file_uploader "Choose a CSV file" in
  match uploaded_file with
  | Some f => try_except (process f) (λ e, emit (st_error_processing e))
  | None => ret tt
  end.

End Script.

(** ** Notions of the specification *)

(** The distinct names of a sequence, each at its first occurrence. *)
Fixpoint first_seen (names : list string) : list string :=
  match names with
  | [] => []
  | n :: rest => n :: filter (λ m, m ≠ n) (first_seen rest)
  end.

(** The names carried by the rows of a frame, in row order. *)
Definition student_names (df : DataFrame) : list string :=
  omap (λ r, text_of (value_at r "student_name")) (rows df).

(** The address of the first row of a group. *)
Definition first_email (g : DataFrame) : cell :=
  match rows g with
  | r :: _ => value_at r "parent_email"
  | [] => NaN
  end.

(** A group as the send loop needs it: at least one row, and an address
    column. *)
Definition student_group (g : string * DataFrame) : Prop :=
  "parent_email" ∈ columns (snd g) ∧ rows (snd g) ≠ [].

(** The columns of the table, in the order the specification fixes. *)
Definition table_columns : list string :=
  ["Course Code"; "Course Name"; "Month Year"; "Grade"; "Grade Points";
   "Credits"; "Result"].

Definition nl : string := String "010" "".

Fixpoint indent (n : nat) : string :=
  match n with
  | O => ""
  | S n' => String " " (indent n')
  end.

(** One table row: a [tr] element holding one [tag] element per cell, each
    on a line of its own. *)
Definition table_row (tag : string) (cells : list string) : string :=
  nl +:+ indent 16 +:+ "<tr>" +:+
  foldr (λ c rest, nl +:+ indent 20 +:+ "<" +:+ tag +:+ ">" +:+ c +:+
                   "</" +:+ tag +:+ ">" +:+ rest)
        (nl +:+ indent 16 +:+ "</tr>") cells.

(** What comes before the table's rows: the text up to the student's
    name, the name, and the text up to the opening of the table. *)
Definition page_intro : string :=
  "
        <html>
        <head>
        <style>
            table { border-collapse: collapse; width: 100%; margin: 20px 0; }
            th, td { border: 1px solid #ddd; padding: 8px; text-align: left; }
            th { background-color: #f2f2f2; }
            tr:nth-child(even) { background-color: #f9f9f9; }
        </style>
        </head>
        <body>
            <p>Dear Parent,</p>
            <p>Your child, <strong>".

Definition page_table_open : string :=
  "</strong>'s results for 2 Year - 3 Semester are out:</p>
            <table>".

Definition page_head (student_name : string) : string :=
  page_intro +:+ student_name +:+ page_table_open.

(** The document the specification describes: one header row, then one
    data row per row of the group, in order, each cell holding the
    formatted field. *)
Definition table_document (float_str : spec_float → string) (student_name : string)
    (group_rows : list (gmap string cell)) : string :=
  page_head student_name +:+
  table_row "th" table_columns +:+ nl +:+ indent 8 +:+
  foldr String.append ""
    (map (λ r, table_row "td" (map (λ c, format float_str (value_at r c)) table_columns))
       group_rows) +:+
  html_close.

(** The message [send_email] builds. *)
Definition envelope (w : World) (to : cell) (student_name html : string) : Envelope :=
  {| msg_from := SENDER_EMAIL w; msg_to := to;
     msg_subject := subject student_name;
     msg_text := text_content student_name;
     msg_html := html |}.

(** The first library call that fails for message [n], if any. *)
Definition first_fault (w : World) (n : nat) (m : Envelope) : option string :=
  hd_error (omap (λ st, fault w n st m) [Attach; Connect; StartTLS; Login; Sendmail]).

Definition sent (to : cell) : Outcome :=
  {| status := "success"; to_email := to; error := None |}.

Definition failed (to : cell) (e : string) : Outcome :=
  {| status := "error"; to_email := to; error := Some e |}.

(** What [send_email] can return. *)
Definition outcome_ok (r : Outcome) : Prop :=
  (status r = "success" ∧ error r = None) ∨ (status r = "error" ∧ is_Some (error r)).

(** The display events of the send loop for the groups still to come. *)
Fixpoint loop_events (total idx : nat) (todo : list (string * DataFrame)) : list event :=
  match todo with
  | [] => []
  | (name, g) :: rest =>
      (if decide (1 < nunique (map (λ r, value_at r "parent_email") (rows g)))
       then [st_warning_multiple name (first_email g)] else []) ++
      st_progress (idx + 1) total :: loop_events total (S idx) rest
  end.

(** The final report for a list of outcomes. *)
Definition report (results : list Outcome) : list event :=
  st_success_sent (length (filter (λ r, status r = "success") results)) ::
  match filter (λ r, status r = "error") results with
  | [] => []
  | errors =>
      st_error "Some emails failed to send:" ::
      omap (λ r, st_write_failed (to_email r) <$> error r) errors
  end.

(** The recipients named by the failure lines of a display. *)
Definition failed_recipients (display : list event) : list cell :=
  omap (λ e, match e with st_write_failed to _ => Some to | _ => None end) display.

(** The address syntax in the words of the specification:
    local-part@domain.tld, the local part made of letters, digits and
    ._%+-, the domain of letters, digits, dots and hyphens, the final label
    of at least two letters. *)
Definition is_alpha (c : ascii) : bool :=
  let n := nat_of_ascii c in
  ((65 <=? n) && (n <=? 90)) || ((97 <=? n) && (n <=? 122)).

Definition is_alnum (c : ascii) : bool :=
  let n := nat_of_ascii c in
  is_alpha c || ((48 <=? n) && (n <=? 57)).

Definition local_part_char (c : ascii) : bool :=
  is_alnum c || bool_decide (c ∈ ["."; "_"; "%"; "+"; "-"]%char).

Definition domain_char (c : ascii) : bool :=
  is_alnum c || bool_decide (c ∈ ["."; "-"]%char).

Fixpoint all_chars (p : ascii → bool) (s : string) : bool :=
  match s with
  | EmptyString => true
  | String c s' => p c && all_chars p s'
  end.

Definition well_formed_email (s : string) : Prop :=
  ∃ local domain tld,
    s = local +:+ "@" +:+ domain +:+ "." +:+ tld ∧
    local ≠ "" ∧ all_chars local_part_char local = true ∧
    domain ≠ "" ∧ all_chars domain_char domain = true ∧
    2 ≤ String.length tld ∧ all_chars is_alpha tld = true.

Fixpoint string_last (s : string) : option ascii :=
  match s with
  | EmptyString => None
  | String c EmptyString => Some c
  | String _ s' => string_last s'
  end.

(** The number of places of [s] at which [pat] occurs. *)
Fixpoint occurrences (pat s : string) : nat :=
  match s with
  | EmptyString => 0
  | String _ s' => (if String.prefix pat s then 1 else 0) + occurrences pat s'
  end.

(** No character of [s] opens a tag. *)
Definition no_markup (s : string) : bool :=
  all_chars (λ c, negb (Ascii.eqb c "<")) s.

(** Every [<] of [s] has at least three characters after it. *)
Fixpoint tags_complete (s : string) : bool :=
  match s with
  | EmptyString => true
  | String c s' =>
      (negb (Ascii.eqb c "<") || (3 <=? String.length s')) && tags_complete s'
  end.

(** A state after some more display events. *)
Definition display (s : State) (events : list event) : State :=
  {| ui := ui s ++ events; world := world s; input := input s |}.

(** What every execution with an upload shows first. *)
Definition banner : list event :=
  [ st_title "Result Email Sender";
    st_write "Upload a CSV file with student results to send emails to parents.";
    st_file_uploader "Choose a CSV file" ].

Definition preview (df : DataFrame) : list event :=
  [ st_write "Preview of uploaded data (first 5 rows):";
    st_dataframe (df_head df) ].

Definition totals (df : DataFrame) : event :=
  st_info_totals (len df) (nunique (map (λ r, value_at r "student_name") (rows df))).

(** The rows whose address is a text that the pattern rejects. *)
Definition flagged (df : DataFrame) : list (gmap string cell) :=
  filter (λ r, Re.re_match email_pattern <$> text_of (value_at r "parent_email")
               = Some false) (rows df).

(** The (student_name, parent_email) pairs shown for the flagged rows. *)
Definition flagged_pairs (df : DataFrame) : DataFrame :=
  {| columns := ["student_name"; "parent_email"];
     rows := map (filter (λ kv, fst kv ∈ ["student_name"; "parent_email"])) (flagged df) |}.

(** What the e-mail check shows. *)
Definition email_warning (df : DataFrame) : list event :=
  match flagged df with
  | [] => []
  | _ :: _ =>
      [ st_warning "Invalid email addresses found:";
        st_dataframe (flagged_pairs df);
        st_button "Continue anyway" ]
  end.

(** What is on display when the "Send Emails" button has been drawn. *)
Definition ready (df : DataFrame) : list event :=
  preview df ++ [totals df] ++ email_warning df ++ [st_button "Send Emails"].

(** The groups the send phase iterates over. *)
Definition groups (df : DataFrame) : list (string * DataFrame) :=
  map (λ key, (key, group df "student_name" key))
    (group_keys (map (λ r, value_at r "student_name") (rows df))).

(** All nine required columns are present. *)
Definition complete (df : DataFrame) : Prop :=
  ∀ c, c ∈ required_columns → c ∈ columns df.

(** Every address is a text. *)
Definition addressed (df : DataFrame) : Prop :=
  Forall (λ r, is_Some (text_of (value_at r "parent_email"))) (rows df).

(** The progress updates of a display, as (completed, total) pairs. *)
Definition progress_of (display : list event) : list (nat * nat) :=
  omap (λ e, match e with st_progress a b => Some (a, b) | _ => None end) display.

(** The students named by the warnings about several addresses. *)
Definition warned_students (display : list event) : list string :=
  omap (λ e, match e with st_warning_multiple n _ => Some n | _ => None end) display.

(** How often the character [c] occurs in [s]. *)
Fixpoint count_char (c : ascii) (s : string) : nat :=
  match s with
  | EmptyString => 0
  | String c' s' => (if Ascii.eqb c' c then 1 else 0) + count_char c s'
  end.

(** The characters an accepted address is made of. *)
Definition address_char (c : ascii) : bool :=
  is_alnum c || bool_decide (c ∈ ["."; "_"; "%"; "+"; "-"; "@"]%char).

(** ** Sample data *)

Module Sample.

Definition header : list string :=
  ["student_name"; "parent_email"; "Course Code"; "Course Name";
   "Month Year"; "Grade"; "Grade Points"; "Credits"; "Result"].

Definition row (name email code : string) : gmap string cell :=
  list_to_map
    [("student_name", Str name); ("parent_email", Str email);
     ("Course Code", Str code); ("Course Name", Str "Mathematics");
     ("Month Year", Str "May 2024"); ("Grade", Str "A");
     ("Grade Points", Num (S754_finite false 9 0));
     ("Credits", Num (S754_finite false 3 0)); ("Result", Str "PASS")].

(** Bob comes first in the file, Alice second. *)
Definition bob_alice : DataFrame :=
  {| columns := header;
     rows := [row "Bob" "bob@x.com" "MA201"; row "Alice" "alice@x.com" "MA201";
              row "Bob" "bob@x.com" "CS202"] |}.

(** One student, three rows, the third with another address. *)
Definition two_addresses : DataFrame :=
  {| columns := header;
     rows := [row "Carol" "a@x.com" "MA201"; row "Carol" "a@x.com" "CS202";
              row "Carol" "b@x.com" "PH203"] |}.

(** Three students, one row each. *)
Definition three_students : DataFrame :=
  {| columns := header;
     rows := [row "Ann" "ann@x.com" "MA201"; row "Ben" "ben@x.com" "MA201";
              row "Cid" "cid@x.com" "MA201"] |}.

(** A header and no rows. *)
Definition no_rows : DataFrame := {| columns := header; rows := [] |}.

(** A file without the columns student_name and Grade Points. *)
Definition nameless : DataFrame :=
  {| columns := ["parent_email"; "Course Code"; "Course Name"; "Month Year";
                 "Grade"; "Credits"; "Result"];
     rows := [delete "Grade Points" (delete "student_name" (row "Bob" "bob@x.com" "MA201"))] |}.

(** A quoted field that ends with a line feed. *)
Definition trailing_newline : DataFrame :=
  {| columns := header; rows := [row "Dan" ("dan@x.com" +:+ nl) "MA201"] |}.

(** A file without the column Grade Points. *)
Definition no_grade_points : DataFrame :=
  {| columns := ["student_name"; "parent_email"; "Course Code"; "Course Name";
                 "Month Year"; "Grade"; "Credits"; "Result"];
     rows := [delete "Grade Points" (row "Bob" "bob@x.com" "MA201")] |}.

(** A frame without the column Grade, as [send_email] could be given. *)
Definition no_grade : DataFrame :=
  {| columns := ["student_name"; "parent_email"; "Course Code"; "Course Name";
                 "Month Year"; "Grade Points"; "Credits"; "Result"];
     rows := [delete "Grade" (row "Bob" "bob@x.com" "MA201")] |}.

(** One address that is not an address. *)
Definition bad_address : DataFrame :=
  {| columns := header;
     rows := [row "Eve" "eve@x.com" "MA201"; row "Fay" "not-an-email" "MA201"] |}.

(** One row with an empty parent_email field. *)
Definition no_address : DataFrame :=
  {| columns := header;
     rows := [row "Gus" "gus@x.com" "MA201";
              delete "parent_email" (row "Hal" "hal@x.com" "MA201")] |}.

(** One row with an empty student_name field. *)
Definition no_name : DataFrame :=
  {| columns := header;
     rows := [row "Ida" "ida@x.com" "MA201";
              delete "student_name" (row "Jon" "jon@x.com" "MA201")] |}.

(** A transport that refuses the second message when connecting. *)
Definition second_refused : World :=
  {| SENDER_EMAIL := Some "office@school.example";
     SENDER_PASSWORD := Some "secret";
     messages := 0; outbox := [];
     fault := λ n st _,
       match n, st with
       | 1, Connect => Some "Connection unexpectedly closed"
       | _, _ => None
       end |}.

Definition quiet : World :=
  {| SENDER_EMAIL := Some "office@school.example";
     SENDER_PASSWORD := Some "secret";
     messages := 0; outbox := [];
     fault := λ _ _ _, None |}.

Definition start (w : World) (f : option upload) (pressed : list string) : State :=
  {| ui := []; world := w;
     input := {| uploaded_file := f;
                 clicked := λ label, bool_decide (label ∈ pressed) |} |}.

(** A float formatter for closed examples; the sample rows are never
    rendered through it in the statements below. *)
Definition plain (x : spec_float) : string := "nan".

End Sample.

(** ** Grouping *)

Section Grouping.

Implicit Types (df : DataFrame) (label key : string).

Lemma text_of_Some (c : cell) (k : string) : text_of c = Some k ↔ c = Str k.
Proof. destruct c; simpl; split; congruence. Qed.

Lemma getcol_present df label s :
  label ∈ columns df →
  getcol df label s = (Val (map (λ r, value_at r label) (rows df)), s).
Proof. intros Hin. unfold getcol. by rewrite decide_True. Qed.

Lemma getcol_absent df label s :
  label ∉ columns df → getcol df label s = (Raise (key_error label), s).
Proof. intros Hin. unfold getcol. by rewrite decide_False. Qed.

Lemma groupby_present df label s :
  label ∈ columns df →
  groupby df label s =
    (Val (map (λ key, (key, group df label key))
            (group_keys (map (λ r, value_at r label) (rows df)))), s).
Proof. intros Hin. unfold groupby, bind. by rewrite getcol_present. Qed.

Lemma group_keys_sorted (col : list cell) : StronglySorted String.le (group_keys col).
Proof. apply (StronglySorted_merge_sort String.le). Qed.

Lemma group_keys_perm (col : list cell) :
  group_keys col ≡ₚ remove_dups (omap text_of col).
Proof. apply merge_sort_Permutation. Qed.

Lemma group_keys_NoDup (col : list cell) : NoDup (group_keys col).
Proof. rewrite group_keys_perm. apply NoDup_remove_dups. Qed.

Lemma elem_of_group_keys (col : list cell) (k : string) :
  k ∈ group_keys col ↔ Str k ∈ col.
Proof.
  rewrite group_keys_perm, elem_of_remove_dups, list_elem_of_omap.
  split.
  - intros (c & Hc & Hk). by apply text_of_Some in Hk as <-.
  - intros Hc. exists (Str k). by split.
Qed.

Lemma names_of_column df :
  omap text_of (map (λ r, value_at r "student_name") (rows df)) = student_names df.
Proof.
  unfold student_names. induction (rows df) as [|r rs IH]; [done|].
  cbn. by rewrite IH.
Qed.

Lemma group_keys_length (col : list cell) :
  length (group_keys col) = length (remove_dups (omap text_of col)).
Proof. by rewrite group_keys_perm. Qed.

(** Distributing the rows over a duplicate-free list of keys that covers
    every row loses and repeats nothing. *)
Lemma concat_filter_cons {A} (key : A → option string) (r : A) (l : list A)
    (keys : list string) (k0 : string) :
  key r = Some k0 → k0 ∈ keys → NoDup keys →
  concat (map (λ k, filter (λ x, key x = Some k) (r :: l)) keys)
    ≡ₚ r :: concat (map (λ k, filter (λ x, key x = Some k) l) keys).
Proof.
  intros Hr Hin Hnd. induction keys as [|k keys IH]; [by inv Hin|].
  apply NoDup_cons in Hnd as [Hk Hnd]. simpl.
  rewrite filter_cons. case_decide as Hdec.
  - assert (k = k0) as -> by congruence.
    simpl. f_equiv. f_equiv.
    clear IH Hin Hnd. induction keys as [|k' keys IH]; [done|].
    simpl. rewrite filter_cons. rewrite decide_False.
    + f_equiv. apply IH. set_solver.
    + rewrite Hr. intros [= ->]. set_solver.
  - assert (k0 ∈ keys) as Hin'.
    { apply elem_of_cons in Hin as [->|]; [|done]. by rewrite Hr in Hdec. }
    rewrite (IH Hin' Hnd). by rewrite Permutation_middle.
Qed.

Lemma concat_filter_perm {A} (key : A → option string) (l : list A)
    (keys : list string) :
  NoDup keys → Forall (λ x, ∃ k, key x = Some k ∧ k ∈ keys) l →
  concat (map (λ k, filter (λ x, key x = Some k) l) keys) ≡ₚ l.
Proof.
  intros Hnd Hall. induction Hall as [|r l (k0 & Hr & Hk0) Hall IH].
  - induction keys as [|k keys IHk]; [done|]. simpl.
    apply NoDup_cons in Hnd as [_ Hnd]. by apply IHk.
  - rewrite (concat_filter_cons key r l keys k0) by done. by f_equiv.
Qed.

End Grouping.

(** ** Rendering *)

Section Render.

Context (float_str : spec_float → string).

Lemma app_String (c : ascii) (a b : string) :
  String c a +:+ b = String c (a +:+ b).
Proof. reflexivity. Qed.

Lemma append_assoc (a b c : string) : (a +:+ b) +:+ c = a +:+ (b +:+ c).
Proof.
  induction a as [|x a IH]; [done|].
  change ((String x a +:+ b) +:+ c) with (String x ((a +:+ b) +:+ c)).
  change (String x a +:+ (b +:+ c)) with (String x (a +:+ (b +:+ c))).
  by rewrite IH.
Qed.

Lemma append_nil_r (a : string) : a +:+ "" = a.
Proof.
  induction a as [|x a IH]; [done|].
  change (String x a +:+ "") with (String x (a +:+ "")). by rewrite IH.
Qed.

Lemma getitem_present (df : DataFrame) (row : gmap string cell) (label : string) s :
  label ∈ columns df → getitem df row label s = (Val (value_at row label), s).
Proof. intros Hin. unfold getitem. by rewrite decide_True. Qed.

Lemma html_open_head (student_name : string) :
  html_open student_name =
    page_head student_name +:+ table_row "th" table_columns +:+ nl +:+ indent 8.
Proof. unfold html_open, page_head. rewrite !append_assoc. reflexivity. Qed.

Lemma html_row_table (c1 c2 c3 c4 c5 c6 c7 : cell) :
  html_row float_str c1 c2 c3 c4 c5 c6 c7 =
    table_row "td" (map (format float_str) [c1; c2; c3; c4; c5; c6; c7]).
Proof. reflexivity. Qed.

End Render.

(** ** The mail sender *)

Section Sender.

Context (float_str : spec_float → string).

Lemma html_rows_present (df : DataFrame) (todo : list (gmap string cell))
    (acc : string) s :
  table_columns ⊆ columns df →
  html_rows float_str df todo acc s =
    (Val (acc +:+ foldr String.append ""
            (map (λ r, table_row "td"
                         (map (λ c, format float_str (value_at r c)) table_columns))
               todo)), s).
Proof.
  intros Hcols. revert acc.
  induction todo as [|r todo IH]; intros acc.
  - simpl. by rewrite append_nil_r.
  - cbn [html_rows]. unfold bind.
    rewrite !getitem_present by (apply Hcols; set_solver).
    rewrite IH, html_row_table, append_assoc. reflexivity.
Qed.

Lemma html_content_present (student_name : string) (df : DataFrame) s :
  table_columns ⊆ columns df →
  html_content float_str student_name df s =
    (Val (table_document float_str student_name (rows df)), s).
Proof.
  intros Hcols. unfold html_content. unfold bind.
  rewrite html_rows_present by done.
  unfold ret, table_document. rewrite html_open_head.
  by rewrite !append_assoc.
Qed.

(** Rendering reads no state and changes none. *)
Lemma html_rows_pure (df : DataFrame) (todo : list (gmap string cell)) (acc : string) :
  ∃ r, r ≠ Halt ∧ ∀ s, html_rows float_str df todo acc s = (r, s).
Proof.
  revert acc. induction todo as [|row todo IH]; intros acc.
  - exists (Val acc). by split.
  - cbn [html_rows]. unfold bind, getitem.
    repeat (case_decide; [|by eexists (Raise _)]).
    cbn [ret]. apply IH.
Qed.

Lemma html_content_pure (student_name : string) (df : DataFrame) :
  ∃ r, r ≠ Halt ∧ ∀ s, html_content float_str student_name df s = (r, s).
Proof.
  destruct (html_rows_pure df (rows df) (html_open student_name)) as (r & Hr & Heq).
  unfold html_content, bind. destruct r as [html|e|]; [| |done].
  - exists (Val (html +:+ html_close)). split; [done|]. intros s. by rewrite Heq.
  - exists (Raise e). split; [done|]. intros s. by rewrite Heq.
Qed.

Lemma send_email_body_spec (to : cell) (student_name : string) (df : DataFrame) s :
  send_email_body float_str to student_name df s =
    match fst (html_content float_str student_name df s) with
    | Val html =>
        let m := envelope (world s) to student_name html in
        match first_fault (world s) (messages (world s)) m with
        | Some e => (Raise e, set_world s (count_message (world s)))
        | None => (Val (sent to), set_world s (store (count_message (world s)) m))
        end
    | Raise e => (Raise e, set_world s (count_message (world s)))
    | Halt => (Halt, set_world s (count_message (world s)))
    end.
Proof.
  destruct (html_content_pure student_name df) as (r & Hr & Heq).
  unfold send_email_body, bind, new_message, sender. rewrite !Heq. cbn [fst].
  destruct r as [html|e|]; [|done|done].
  unfold first_fault, call, envelope. cbn.
  repeat match goal with
         | |- context [fault ?w ?n ?st ?m] =>
             destruct (fault w n st m); cbn; [done|]
         end.
  done.
Qed.

Lemma send_email_spec (to : cell) (student_name : string) (df : DataFrame) s :
  ∃ o w,
    send_email float_str to student_name df s = (Val o, set_world s w) ∧
    to_email o = to ∧
    messages w = S (messages (world s)) ∧
    ((status o = "success" ∧ error o = None) ∨
     (status o = "error" ∧ is_Some (error o))).
Proof.
  unfold send_email, try_except. rewrite send_email_body_spec.
  destruct (html_content_pure student_name df) as (r & Hr & Heq).
  rewrite Heq. cbn [fst]. destruct r as [html|e|]; [| |done].
  - cbn zeta. destruct (first_fault _ _ _) as [e|].
    + exists (failed to e), (count_message (world s)). eauto 10.
    + eexists (sent to), _. eauto 10.
  - exists (failed to e), (count_message (world s)). eauto 10.
Qed.

End Sender.

(** ** The send loop and the report *)

Section Orchestrator.

Context (float_str : spec_float → string).

Lemma bind_val {A B} (m : M A) (f : A → M B) s a s' :
  m s = (Val a, s') → bind m f s = f a s'.
Proof. intros H. unfold bind. by rewrite H. Qed.

Lemma bind_raise {A B} (m : M A) (f : A → M B) s e s' :
  m s = (Raise e, s') → bind m f s = (Raise e, s').
Proof. intros H. unfold bind. by rewrite H. Qed.

Lemma bind_halt {A B} (m : M A) (f : A → M B) s s' :
  m s = (Halt, s') → bind m f s = (Halt, s').
Proof. intros H. unfold bind. by rewrite H. Qed.

Lemma iloc0_first (g : DataFrame) s :
  rows g ≠ [] →
  iloc0 (map (λ r, value_at r "parent_email") (rows g)) s = (Val (first_email g), s).
Proof. unfold first_email. by destruct (rows g). Qed.

Lemma warn_step (P : Prop) `{Decision P} (ev : event) s :
  (if decide P then emit ev else ret tt) s =
    (Val tt, {| ui := ui s ++ (if decide P then [ev] else []);
                world := world s; input := input s |}).
Proof.
  case_decide; [done|]. unfold ret. rewrite app_nil_r. by destruct s.
Qed.

Lemma progress_step (completed total : nat) s :
  completed ≤ total → total ≠ 0 →
  progress completed total s =
    (Val tt, {| ui := ui s ++ [st_progress completed total];
                world := world s; input := input s |}).
Proof.
  intros Hle Hne. unfold progress. rewrite decide_False by done.
  by rewrite decide_True by done.
Qed.

Lemma send_loop_spec (total idx : nat) (todo : list (string * DataFrame))
    (results : list Outcome) s :
  Forall student_group todo →
  idx + length todo ≤ total →
  ∃ new w,
    send_loop float_str total idx todo results s =
      (Val (results ++ new),
       {| ui := ui s ++ loop_events total idx todo; world := w; input := input s |}) ∧
    map to_email new = map (λ g, first_email (snd g)) todo ∧
    Forall outcome_ok new ∧
    messages w = messages (world s) + length todo.
Proof.
  intros Hwf. revert idx results s.
  induction Hwf as [|[name g] todo [Hcol Hrows] Hwf IH]; intros idx results s Hle.
  - exists [], (world s). cbn. rewrite !app_nil_r. destruct s. cbn. auto with lia.
  - cbn in Hcol, Hrows, Hle. cbn [send_loop].
    erewrite bind_val by (by apply getcol_present).
    erewrite bind_val by (by apply iloc0_first).
    erewrite bind_val by (by apply getcol_present).
    erewrite bind_val by apply warn_step. cbn beta.
    match goal with |- context [bind (send_email _ _ _ _) _ ?s0] =>
      destruct (send_email_spec float_str (first_email g) name g s0)
        as (o & w & Hsend & Hto & Hmsg & Hok) end.
    erewrite bind_val by exact Hsend. cbn beta zeta.
    erewrite bind_val by (apply progress_step; lia). cbn beta.
    match goal with |- context [send_loop _ _ _ _ _ ?s1] =>
      destruct (IH (S idx) (results ++ [o]) s1) as (new & w' & Hloop & Hmap & Hall & Hcount);
        [lia|] end.
    exists (o :: new), w'. split; [|split; [|split]].
    + rewrite Hloop. cbn. rewrite <- !app_assoc. reflexivity.
    + cbn. by rewrite Hto, Hmap.
    + by constructor.
    + rewrite Hcount. cbn. rewrite Hmsg. cbn. lia.
Qed.
Lemma sum_ones {A} (l : list A) : sum_list (map (λ _, 1) l) = length l.
Proof. induction l as [|x l IH]; [done|]. cbn. by rewrite IH. Qed.

Lemma write_failures_spec (errors : list Outcome) s :
  Forall (λ r, is_Some (error r)) errors →
  write_failures errors s =
    (Val tt, {| ui := ui s ++ omap (λ r, st_write_failed (to_email r) <$> error r) errors;
                world := world s; input := input s |}).
Proof.
  intros Hall. revert s. induction Hall as [|r errors [e He] Hall IH]; intros s.
  - cbn. rewrite app_nil_r. by destruct s.
  - cbn [write_failures]. rewrite He. erewrite bind_val by reflexivity.
    cbn beta. rewrite IH. cbn. rewrite He. cbn. by rewrite <- app_assoc.
Qed.

Lemma display_results_spec (results : list Outcome) s :
  Forall outcome_ok results →
  display_results results s =
    (Val tt, {| ui := ui s ++ report results; world := world s; input := input s |}).
Proof.
  intros Hall. unfold display_results, report. rewrite sum_ones.
  erewrite bind_val by reflexivity. cbn beta.
  assert (Forall (λ r, is_Some (error r)) (filter (λ r, status r = "error") results))
    as Herr.
  { apply Forall_forall. intros r [Hst Hr]%list_elem_of_filter.
    rewrite Forall_forall in Hall. destruct (Hall r Hr) as [[Hs _]|[_ He]]; [|done].
    by rewrite Hs in Hst. }
  destruct (filter (λ r, status r = "error") results) as [|r errors] eqn:Hf.
  - reflexivity.
  - erewrite bind_val by reflexivity. cbn beta.
    rewrite write_failures_spec by done. cbn. rewrite <- !app_assoc. reflexivity.
Qed.

Lemma send_all_spec (grouped : list (string * DataFrame)) s :
  Forall student_group grouped →
  ∃ results w,
    send_all float_str grouped s =
      (Val results,
       {| ui := ui s ++ st_progress_start :: loop_events (length grouped) 0 grouped;
          world := w; input := input s |}) ∧
    map to_email results = map (λ g, first_email (snd g)) grouped ∧
    Forall outcome_ok results ∧
    messages w = messages (world s) + length grouped.
Proof.
  intros Hwf. unfold send_all. erewrite bind_val by reflexivity. cbn beta zeta.
  match goal with |- context [send_loop _ _ _ _ _ ?s1] =>
    destruct (send_loop_spec (length grouped) 0 grouped [] s1 Hwf)
      as (results & w & Hloop & Hmap & Hall & Hcount); [cbn; lia|] end.
  exists results, w. rewrite Hloop. cbn. rewrite <- app_assoc. auto.
Qed.

Lemma send_emails_handler_spec (grouped : list (string * DataFrame)) s :
  Forall student_group grouped →
  ∃ results w,
    send_all float_str grouped s =
      (Val results,
       {| ui := ui s ++ st_progress_start :: loop_events (length grouped) 0 grouped;
          world := w; input := input s |}) ∧
    send_emails_handler float_str grouped s =
      (Val tt,
       {| ui := (ui s ++ st_progress_start :: loop_events (length grouped) 0 grouped)
                ++ report results;
          world := w; input := input s |}) ∧
    map to_email results = map (λ g, first_email (snd g)) grouped ∧
    Forall outcome_ok results ∧
    messages w = messages (world s) + length grouped.
Proof.
  intros Hwf.
  destruct (send_all_spec grouped s Hwf) as (results & w & Hall & Hmap & Hok & Hcount).
  exists results, w. split; [done|]. split; [|done].
  unfold send_emails_handler. erewrite bind_val by exact Hall. cbn beta.
  by rewrite display_results_spec.
Qed.

End Orchestrator.

(** ** One execution of the script *)

Section Run.

Context (float_str : spec_float → string).

Lemma display_display s (a b : list event) :
  display (display s a) b = display s (a ++ b).
Proof. unfold display. cbn. by rewrite app_assoc. Qed.

Lemma display_nil s : display s [] = s.
Proof. unfold display. rewrite app_nil_r. by destruct s. Qed.

Lemma emit_step (e : event) s : emit e s = (Val tt, display s [e]).
Proof. reflexivity. Qed.

Lemma button_step (label : string) s :
  button label s = (Val (clicked (input s) label), display s [st_button label]).
Proof. reflexivity. Qed.

Lemma required_present (df : DataFrame) (c : string) :
  complete df → c ∈ required_columns → c ∈ columns df.
Proof. intros H. apply H. Qed.

Lemma complete_no_missing (df : DataFrame) :
  complete df ↔ required_columns ∖ list_to_set (columns df) = (∅ : gset string).
Proof.
  unfold complete. split.
  - intros H. apply set_eq. intros c. rewrite elem_of_difference, elem_of_list_to_set.
    split; [|set_solver]. intros [Hc Hn]. destruct Hn. by apply H.
  - intros H c Hc. destruct (decide (c ∈ columns df)) as [|Hn]; [done|].
    assert (c ∈ required_columns ∖ list_to_set (columns df)) as Hin.
    { rewrite elem_of_difference, elem_of_list_to_set. done. }
    rewrite H in Hin. set_solver.
Qed.

Lemma validate_columns_pass (df : DataFrame) s :
  complete df → validate_columns df s = (Val tt, s).
Proof.
  intros H%complete_no_missing. unfold validate_columns. cbn zeta.
  by rewrite decide_False by (by intros ?).
Qed.

Lemma validate_columns_stop (df : DataFrame) s :
  ¬ complete df →
  validate_columns df s =
    (Halt, display s [st_error_missing (required_columns ∖ list_to_set (columns df))]).
Proof.
  intros H. unfold validate_columns. cbn zeta.
  rewrite decide_True by (by rewrite <- complete_no_missing).
  by erewrite bind_val by apply emit_step.
Qed.

Lemma select_filter (df : DataFrame) :
  addressed df →
  select df (map (λ b, negb (default false b))
               (str_match email_pattern (map (λ r, value_at r "parent_email") (rows df))))
  = {| columns := columns df; rows := flagged df |}.
Proof.
  unfold addressed, select, flagged, str_match. intros Hall. f_equal.
  generalize (Re.re_match email_pattern). intros ok.
  induction Hall as [|r rs [e He] Hall IH]; [done|].
  cbn [map zip zip_with]. rewrite !filter_cons. cbn [snd]. rewrite He.
  cbn [fmap option_fmap option_map default].
  destruct (ok e); cbn [negb].
  - rewrite decide_False by done. rewrite decide_False by (by intros [=]). apply IH.
  - rewrite decide_True by done. rewrite decide_True by done.
    cbn [map fst]. f_equal. apply IH.
Qed.

Lemma invert_text (df : DataFrame) s :
  addressed df →
  invert (str_match email_pattern (map (λ r, value_at r "parent_email") (rows df))) s =
    (Val (map (λ b, negb (default false b))
            (str_match email_pattern (map (λ r, value_at r "parent_email") (rows df)))), s).
Proof.
  intros Hall. unfold invert. rewrite decide_False; [done|].
  unfold str_match. rewrite !list_elem_of_fmap. intros (c & Hc & (r & -> & Hr)%list_elem_of_fmap).
  unfold addressed in Hall. rewrite Forall_forall in Hall.
  destruct (Hall r Hr) as [e He]. by rewrite He in Hc.
Qed.

Lemma invert_missing (df : DataFrame) s :
  ¬ addressed df →
  invert (str_match email_pattern (map (λ r, value_at r "parent_email") (rows df))) s =
    (Raise "bad operand type for unary ~: 'float'", s).
Proof.
  intros Hall. unfold invert. rewrite decide_True; [done|].
  unfold addressed in Hall. apply not_Forall_Exists in Hall; [|apply _].
  apply Exists_exists in Hall as (r & Hr & Hnone).
  unfold str_match. apply list_elem_of_fmap. exists (value_at r "parent_email").
  split.
  - unfold compose in Hnone.
    destruct (text_of (value_at r "parent_email")); [|done].
    exfalso. apply Hnone. by eexists.
  - apply list_elem_of_fmap. eauto.
Qed.

Lemma invalid_emails_text (df : DataFrame) s :
  "parent_email" ∈ columns df → addressed df →
  invalid_emails df s = (Val {| columns := columns df; rows := flagged df |}, s).
Proof.
  intros Hcol Hall. unfold invalid_emails.
  erewrite bind_val by (by apply getcol_present). cbn beta.
  erewrite bind_val by (by apply invert_text). cbn beta.
  by rewrite select_filter.
Qed.

Lemma invalid_emails_missing (df : DataFrame) s :
  "parent_email" ∈ columns df → ¬ addressed df →
  invalid_emails df s = (Raise "bad operand type for unary ~: 'float'", s).
Proof.
  intros Hcol Hall. unfold invalid_emails.
  erewrite bind_val by (by apply getcol_present). cbn beta.
  by erewrite bind_raise by (by apply invert_missing).
Qed.

Lemma project_pairs (df : DataFrame) s :
  "student_name" ∈ columns df → "parent_email" ∈ columns df →
  project {| columns := columns df; rows := flagged df |}
    ["student_name"; "parent_email"] s = (Val (flagged_pairs df), s).
Proof.
  intros H1 H2. unfold project. cbn [columns rows].
  rewrite decide_True; [done|].
  intros c [->|[->|[]%elem_of_nil]%elem_of_cons]%elem_of_cons; done.
Qed.

Lemma validate_emails_spec (df : DataFrame) s :
  "student_name" ∈ columns df → "parent_email" ∈ columns df → addressed df →
  validate_emails df s =
    (match flagged df with
     | [] => Val tt
     | _ :: _ => if clicked (input s) "Continue anyway" then Val tt else Halt
     end,
     display s (email_warning df)).
Proof.
  intros H1 H2 Hall. unfold validate_emails, email_warning.
  erewrite bind_val by (by apply invalid_emails_text). cbn beta.
  unfold empty. cbn [rows columns].
  destruct (flagged df) as [|r rs] eqn:Hf.
  - rewrite bool_decide_eq_true_2 by auto. cbn. by rewrite display_nil.
  - rewrite bool_decide_eq_false_2; last first.
    { intros [?|Hc]; [done|]. rewrite Hc in H2. set_solver. }
    cbn [negb]. erewrite bind_val by apply emit_step. cbn beta.
    erewrite bind_val by (rewrite <- Hf; by apply project_pairs). cbn beta.
    erewrite bind_val by apply emit_step. cbn beta.
    erewrite bind_val by apply button_step. cbn beta.
    rewrite !display_display. cbn [input display app].
    by destruct (clicked (input s) "Continue anyway").
Qed.

Lemma groups_student_group (df : DataFrame) :
  "parent_email" ∈ columns df → Forall student_group (groups df).
Proof.
  intros Hcol. unfold groups. apply Forall_forall.
  intros g (key & -> & Hkey)%list_elem_of_fmap. split; [done|]. cbn.
  apply elem_of_group_keys, list_elem_of_fmap in Hkey as (r & Hr & Hin).
  intros Hnil.
  assert (r ∈ filter (λ r, text_of (value_at r "student_name") = Some key) (rows df))
    as Hf.
  { apply list_elem_of_filter. split; [|done]. by rewrite <- Hr. }
  rewrite Hnil in Hf. by apply not_elem_of_nil in Hf.
Qed.

Lemma process_validated (df : DataFrame) s :
  complete df → addressed df →
  (flagged df = [] ∨ clicked (input s) "Continue anyway" = true) →
  process float_str (Parsed df) s =
    if clicked (input s) "Send Emails"
    then send_emails_handler float_str (groups df) (display s (ready df))
    else (Val tt, display s (ready df)).
Proof.
  intros Hc Hall Hgo.
  assert ("student_name" ∈ columns df) as H1 by (apply Hc; set_solver).
  assert ("parent_email" ∈ columns df) as H2 by (apply Hc; set_solver).
  unfold process, read_csv.
  erewrite bind_val by reflexivity. cbn beta.
  erewrite bind_val by apply emit_step. cbn beta.
  erewrite bind_val by apply emit_step. cbn beta.
  erewrite bind_val by (by apply getcol_present). cbn beta.
  erewrite bind_val by apply emit_step. cbn beta.
  erewrite bind_val by (by apply validate_columns_pass). cbn beta.
  rewrite !display_display.
  erewrite bind_val; last first.
  { rewrite validate_emails_spec by done. cbn [input display].
    destruct Hgo as [->| ->]; [reflexivity|]. by destruct (flagged df). }
  cbn beta.
  erewrite bind_val by (by apply groupby_present). cbn beta.
  erewrite bind_val by apply button_step. cbn beta.
  rewrite !display_display. cbn [input display].
  unfold ready, preview, totals, len. cbn [app].
  by destruct (clicked (input s) "Send Emails").
Qed.

Lemma process_no_names (df : DataFrame) s :
  "student_name" ∉ columns df →
  process float_str (Parsed df) s =
    (Raise (key_error "student_name"), display s (preview df)).
Proof.
  intros Hn. unfold process, read_csv.
  erewrite bind_val by reflexivity. cbn beta.
  erewrite bind_val by apply emit_step. cbn beta.
  erewrite bind_val by apply emit_step. cbn beta.
  rewrite !display_display.
  by erewrite bind_raise by (by apply getcol_absent).
Qed.

Lemma process_incomplete (df : DataFrame) s :
  "student_name" ∈ columns df → ¬ complete df →
  process float_str (Parsed df) s =
    (Halt, display s (preview df ++
                      [totals df;
                       st_error_missing (required_columns ∖ list_to_set (columns df))])).
Proof.
  intros H1 Hn. unfold process, read_csv.
  erewrite bind_val by reflexivity. cbn beta.
  erewrite bind_val by apply emit_step. cbn beta.
  erewrite bind_val by apply emit_step. cbn beta.
  erewrite bind_val by (by apply getcol_present). cbn beta.
  erewrite bind_val by apply emit_step. cbn beta.
  erewrite bind_halt by (by apply validate_columns_stop).
  by rewrite !display_display.
Qed.

Lemma process_unconfirmed (df : DataFrame) s :
  complete df → addressed df → flagged df ≠ [] →
  clicked (input s) "Continue anyway" = false →
  process float_str (Parsed df) s =
    (Halt, display s (preview df ++ [totals df] ++ email_warning df)).
Proof.
  intros Hc Hall Hf Hno.
  assert ("student_name" ∈ columns df) as H1 by (apply Hc; set_solver).
  assert ("parent_email" ∈ columns df) as H2 by (apply Hc; set_solver).
  unfold process, read_csv.
  erewrite bind_val by reflexivity. cbn beta.
  erewrite bind_val by apply emit_step. cbn beta.
  erewrite bind_val by apply emit_step. cbn beta.
  erewrite bind_val by (by apply getcol_present). cbn beta.
  erewrite bind_val by apply emit_step. cbn beta.
  erewrite bind_val by (by apply validate_columns_pass). cbn beta.
  rewrite !display_display.
  erewrite bind_halt; last first.
  { rewrite validate_emails_spec by done. cbn [input display].
    rewrite Hno. by destruct (flagged df). }
  by rewrite !display_display.
Qed.

Lemma process_missing_address (df : DataFrame) s :
  complete df → ¬ addressed df →
  process float_str (Parsed df) s =
    (Raise "bad operand type for unary ~: 'float'",
     display s (preview df ++ [totals df])).
Proof.
  intros Hc Hall.
  assert ("student_name" ∈ columns df) as H1 by (apply Hc; set_solver).
  assert ("parent_email" ∈ columns df) as H2 by (apply Hc; set_solver).
  unfold process, read_csv.
  erewrite bind_val by reflexivity. cbn beta.
  erewrite bind_val by apply emit_step. cbn beta.
  erewrite bind_val by apply emit_step. cbn beta.
  erewrite bind_val by (by apply getcol_present). cbn beta.
  erewrite bind_val by apply emit_step. cbn beta.
  erewrite bind_val by (by apply validate_columns_pass). cbn beta.
  rewrite !display_display.
  erewrite bind_raise; [reflexivity|].
  unfold validate_emails.
  by erewrite bind_raise by (by apply invalid_emails_missing).
Qed.

Lemma script_upload (f : upload) s :
  uploaded_file (input s) = Some f →
  script float_str s =
    try_except (process float_str f) (λ e, emit (st_error_processing e))
      (display s banner).
Proof.
  intros Hf. unfold script.
  erewrite bind_val by apply emit_step. cbn beta.
  erewrite bind_val by apply emit_step. cbn beta.
  erewrite bind_val by reflexivity. cbn beta.
  cbn [input display]. rewrite Hf. unfold banner, display. cbn.
  by rewrite <- !app_assoc.
Qed.

Lemma script_idle s :
  uploaded_file (input s) = None →
  script float_str s = (Val tt, display s banner).
Proof.
  intros Hf. unfold script.
  erewrite bind_val by apply emit_step. cbn beta.
  erewrite bind_val by apply emit_step. cbn beta.
  erewrite bind_val by reflexivity. cbn beta.
  cbn [input display]. rewrite Hf. unfold banner, display, ret. cbn.
  by rewrite <- !app_assoc.
Qed.

End Run.

(** ** The claims about grouping *)

Section GroupingClaims.

Context (float_str : spec_float → string).

(** C1, as the specification states it, fails: for a file that lists Bob
    before Alice the groups come out as Alice, Bob, while the first-seen
    order is Bob, Alice. *)
Lemma C1_groups_not_in_first_seen_order :
  let s := Sample.start Sample.quiet None [] in
  ∃ gs,
    groupby Sample.bob_alice "student_name" s = (Val gs, s) ∧
    map fst gs = ["Alice"; "Bob"] ∧
    first_seen (student_names Sample.bob_alice) = ["Bob"; "Alice"] ∧
    map fst gs ≠ first_seen (student_names Sample.bob_alice).
Proof.
  cbn zeta. eexists. split; [apply groupby_present; compute_done|].
  split; [by vm_compute|]. split; [by vm_compute|]. by vm_compute.
Qed.

(** C1, amended: the groups come in ascending order of student_name
    (bytewise lexicographic, every name that occurs exactly once); the
    rows of a group keep their order in the input; and the send loop
    makes one attempt per group, in that order, to the address of the
    group's first row. *)
Theorem C1_groups_sorted_by_name (df : DataFrame) s :
  "student_name" ∈ columns df →
  "parent_email" ∈ columns df →
  ∃ gs,
    groupby df "student_name" s = (Val gs, s) ∧
    StronglySorted String.le (map fst gs) ∧
    NoDup (map fst gs) ∧
    (∀ k, k ∈ map fst gs ↔ k ∈ student_names df) ∧
    (∀ k g, (k, g) ∈ gs →
       rows g = filter (λ r, text_of (value_at r "student_name") = Some k) (rows df)) ∧
    ∃ results s',
      send_all float_str gs s = (Val results, s') ∧
      map to_email results = map (λ g, first_email (snd g)) gs ∧
      ui s' = ui s ++ st_progress_start :: loop_events (length gs) 0 gs.
Proof.
  intros H1 H2. exists (groups df).
  assert (map fst (groups df) =
          group_keys (map (λ r, value_at r "student_name") (rows df))) as Hkeys.
  { unfold groups. rewrite map_map. cbn. apply map_id. }
  split; [by apply groupby_present|]. rewrite Hkeys.
  split; [apply group_keys_sorted|]. split; [apply group_keys_NoDup|].
  split; [|split].
  - intros k. rewrite elem_of_group_keys. unfold student_names.
    rewrite list_elem_of_omap, list_elem_of_fmap. split.
    + intros (r & Hr & Hin). exists r. split; [done|]. by rewrite <- Hr.
    + intros (r & Hin & Hr). exists r. split; [|done]. by apply text_of_Some in Hr.
  - intros k g (key & [= -> ->] & _)%list_elem_of_fmap. reflexivity.
  - destruct (send_all_spec float_str (groups df) s (groups_student_group df H2))
      as (results & w & Hall & Hmap & _ & _).
    eauto.
Qed.

(** C8: for an input in which every row has a student name, with N
    distinct names, the grouper yields N groups, and the rows of the
    groups together are the input rows, none lost and none repeated. *)
Theorem C8_groups_partition_the_rows (df : DataFrame) s :
  "student_name" ∈ columns df →
  Forall (λ r, is_Some (text_of (value_at r "student_name"))) (rows df) →
  ∃ gs,
    groupby df "student_name" s = (Val gs, s) ∧
    length gs = length (remove_dups (student_names df)) ∧
    concat (map (λ g, rows (snd g)) gs) ≡ₚ rows df.
Proof.
  intros H1 Hall. exists (groups df). split; [by apply groupby_present|].
  unfold groups. split.
  - rewrite length_map, group_keys_length. by rewrite names_of_column.
  - rewrite map_map. cbn.
    apply (concat_filter_perm (λ r, text_of (value_at r "student_name"))).
    + apply group_keys_NoDup.
    + apply Forall_forall. intros r Hr.
      rewrite Forall_forall in Hall. destruct (Hall r Hr) as [k Hk].
      exists k. split; [done|].
      apply elem_of_group_keys, list_elem_of_fmap.
      exists r. split; [|done]. symmetry. by apply text_of_Some.
Qed.

End GroupingClaims.

Lemma C1_groups_sorted_by_name_witness :
  let s := Sample.start Sample.quiet None [] in
  ∃ gs,
    groupby Sample.bob_alice "student_name" s = (Val gs, s) ∧
    StronglySorted String.le (map fst gs) ∧
    NoDup (map fst gs) ∧
    (∀ k, k ∈ map fst gs ↔ k ∈ student_names Sample.bob_alice) ∧
    (∀ k g, (k, g) ∈ gs →
       rows g = filter (λ r, text_of (value_at r "student_name") = Some k)
                  (rows Sample.bob_alice)) ∧
    ∃ results s',
      send_all Sample.plain gs s = (Val results, s') ∧
      map to_email results = map (λ g, first_email (snd g)) gs ∧
      ui s' = ui s ++ st_progress_start :: loop_events (length gs) 0 gs.
Proof.
  apply (C1_groups_sorted_by_name Sample.plain Sample.bob_alice);
    compute_done.
Defined.

Lemma C8_groups_partition_the_rows_witness :
  let s := Sample.start Sample.quiet None [] in
  ∃ gs,
    groupby Sample.bob_alice "student_name" s = (Val gs, s) ∧
    length gs = length (remove_dups (student_names Sample.bob_alice)) ∧
    concat (map (λ g, rows (snd g)) gs) ≡ₚ rows Sample.bob_alice.
Proof.
  apply (C8_groups_partition_the_rows Sample.bob_alice).
  - compute_done.
  - repeat constructor; by eexists.
Defined.

(** ** Counting the rows of the rendered table *)

Section RowCount.

Lemma prefix_app (pat a b : string) :
  String.length pat ≤ String.length a →
  String.prefix pat (a +:+ b) = String.prefix pat a.
Proof.
  revert a. induction pat as [|c pat IH]; intros a Hlen.
  - assert (∀ s, String.prefix "" s = true) as Hnil by (by intros []).
    by rewrite !Hnil.
  - destruct a as [|c' a]; [cbn in Hlen; lia|].
    rewrite app_String. cbn [String.prefix].
    destruct (ascii_dec c c'); [|done]. apply IH. cbn in Hlen. lia.
Qed.

Lemma prefix_tr_other (c : ascii) (s : string) :
  Ascii.eqb c "<" = false → String.prefix "<tr>" (String c s) = false.
Proof.
  intros Hc. cbn [String.prefix]. destruct (ascii_dec "<" c) as [<-|]; [|done].
  by rewrite Ascii.eqb_refl in Hc.
Qed.

Lemma occurrences_text (v rest : string) :
  no_markup v = true →
  occurrences "<tr>" (v +:+ rest) = occurrences "<tr>" rest.
Proof.
  intros Hv. induction v as [|c v IH]; [done|].
  cbn in Hv. apply andb_true_iff in Hv as [Hc Hv].
  rewrite app_String. cbn [occurrences].
  rewrite prefix_tr_other by (by apply negb_true_iff). by rewrite IH.
Qed.

Lemma occurrences_fixed (l rest : string) :
  tags_complete l = true →
  occurrences "<tr>" (l +:+ rest) = occurrences "<tr>" l + occurrences "<tr>" rest.
Proof.
  induction l as [|c l IH]; [done|].
  cbn [tags_complete]. intros [Hc Hl]%andb_true_iff.
  rewrite app_String. cbn [occurrences]. rewrite IH by done.
  rewrite <- app_String.
  assert (String.prefix "<tr>" (String c l +:+ rest) = String.prefix "<tr>" (String c l))
    as ->; [|lia].
  apply orb_true_iff in Hc as [Hc|Hc].
  - rewrite app_String, !prefix_tr_other; by (done || apply negb_true_iff).
  - apply prefix_app. apply Nat.leb_le in Hc. cbn. lia.
Qed.

Lemma foldr_cells_app (tag : string) (cells : list string) (last rest : string) :
  foldr (λ c acc, nl +:+ indent 20 +:+ "<" +:+ tag +:+ ">" +:+ c +:+
                  "</" +:+ tag +:+ ">" +:+ acc) last cells +:+ rest
  = foldr (λ c acc, nl +:+ indent 20 +:+ "<" +:+ tag +:+ ">" +:+ c +:+
                    "</" +:+ tag +:+ ">" +:+ acc) (last +:+ rest) cells.
Proof.
  induction cells as [|c cells IH]; [done|]. cbn [foldr].
  rewrite !append_assoc. by rewrite IH.
Qed.

Lemma occurrences_cells (tag : string) (cells : list string) (rest : string) :
  tag = "td" ∨ tag = "th" →
  Forall (λ c, no_markup c = true) cells →
  occurrences "<tr>"
    (foldr (λ c acc, nl +:+ indent 20 +:+ "<" +:+ tag +:+ ">" +:+ c +:+
                     "</" +:+ tag +:+ ">" +:+ acc) rest cells)
  = occurrences "<tr>" rest.
Proof.
  intros Htag Hcells. induction Hcells as [|c cells Hc Hcells IH]; [done|].
  cbn [foldr]. destruct Htag as [-> | ->].
  - change (occurrences "<tr>"
              ((nl +:+ indent 20 +:+ "<td>") +:+ c +:+ "</td>" +:+
                foldr (λ c acc, nl +:+ indent 20 +:+ "<" +:+ "td" +:+ ">" +:+ c +:+
                     "</" +:+ "td" +:+ ">" +:+ acc) rest cells)
            = occurrences "<tr>" rest).
    rewrite (occurrences_fixed (nl +:+ indent 20 +:+ "<td>")) by done.
    rewrite (occurrences_text c) by auto.
    rewrite (occurrences_fixed "</td>") by done. rewrite IH by auto. reflexivity.
  - change (occurrences "<tr>"
              ((nl +:+ indent 20 +:+ "<th>") +:+ c +:+ "</th>" +:+
                foldr (λ c acc, nl +:+ indent 20 +:+ "<" +:+ "th" +:+ ">" +:+ c +:+
                     "</" +:+ "th" +:+ ">" +:+ acc) rest cells)
            = occurrences "<tr>" rest).
    rewrite (occurrences_fixed (nl +:+ indent 20 +:+ "<th>")) by done.
    rewrite (occurrences_text c) by auto.
    rewrite (occurrences_fixed "</th>") by done. rewrite IH by auto. reflexivity.
Qed.

Lemma occurrences_table_row (tag : string) (cells : list string) (rest : string) :
  tag = "td" ∨ tag = "th" →
  Forall (λ c, no_markup c = true) cells →
  occurrences "<tr>" (table_row tag cells +:+ rest) = 1 + occurrences "<tr>" rest.
Proof.
  intros Htag Hcells. unfold table_row. rewrite !append_assoc.
  rewrite foldr_cells_app.
  change (occurrences "<tr>"
            ((nl +:+ indent 16 +:+ "<tr>") +:+
             foldr (λ c acc, nl +:+ indent 20 +:+ "<" +:+ tag +:+ ">" +:+ c +:+
                     "</" +:+ tag +:+ ">" +:+ acc)
               ((nl +:+ indent 16 +:+ "</tr>") +:+ rest) cells)
          = 1 + occurrences "<tr>" rest).
  rewrite (occurrences_fixed (nl +:+ indent 16 +:+ "<tr>")) by done.
  rewrite occurrences_cells by done.
  rewrite (occurrences_fixed (nl +:+ indent 16 +:+ "</tr>")) by done. reflexivity.
Qed.

Lemma occurrences_rows (float_str : spec_float → string)
    (group_rows : list (gmap string cell)) (rest : string) :
  Forall (λ r, Forall (λ c, no_markup (format float_str (value_at r c)) = true)
                 table_columns) group_rows →
  occurrences "<tr>"
    (foldr String.append ""
       (map (λ r, table_row "td"
                    (map (λ c, format float_str (value_at r c)) table_columns))
          group_rows) +:+ rest)
  = length group_rows + occurrences "<tr>" rest.
Proof.
  intros Hrows. induction Hrows as [|r rs Hr Hrows IH]; [done|].
  cbn [map foldr]. rewrite append_assoc.
  rewrite occurrences_table_row; [|by left|by apply Forall_fmap].
  cbn [length]. by rewrite IH.
Qed.

(** With no markup in the name and in the cells, the document holds one
    [<tr>] for the header and one per row. *)
Lemma table_row_count (float_str : spec_float → string) (student_name : string)
    (group_rows : list (gmap string cell)) :
  no_markup student_name = true →
  Forall (λ r, Forall (λ c, no_markup (format float_str (value_at r c)) = true)
                 table_columns) group_rows →
  occurrences "<tr>" (table_document float_str student_name group_rows)
  = 1 + length group_rows.
Proof.
  intros Hname Hrows. unfold table_document, page_head.
  rewrite !append_assoc.
  rewrite (occurrences_fixed page_intro) by (by vm_compute).
  rewrite (occurrences_text student_name) by auto.
  rewrite (occurrences_fixed page_table_open) by (by vm_compute).
  rewrite occurrences_table_row; [|by right|by repeat constructor].
  rewrite <- (append_assoc nl (indent 8)).
  rewrite (occurrences_text (nl +:+ indent 8)) by auto.
  rewrite occurrences_rows by done.
  replace (occurrences "<tr>" page_intro) with 0 by (by vm_compute).
  replace (occurrences "<tr>" page_table_open) with 0 by (by vm_compute).
  replace (occurrences "<tr>" html_close) with 0 by (by vm_compute).
  lia.
Qed.

End RowCount.

(** ** The claims about the report and the mail sender *)

Section SenderClaims.

Context (float_str : spec_float → string).

(** C7: for a group that has the seven table columns, the HTML document
    is the page head, one header row with the columns Course Code, Course
    Name, Month Year, Grade, Grade Points, Credits, Result in that order,
    then one data row per row of the group in the group's order, each
    cell holding the formatted field value (a text as it is), then the
    page tail; nothing is sorted, summed or reformatted.  When neither the
    name nor a cell holds a [<], the document has exactly one [<tr>] for
    the header and one per row of the group. *)
Theorem C7_html_table (student_name : string) (g : DataFrame) s :
  table_columns ⊆ columns g →
  html_content float_str student_name g s =
    (Val (table_document float_str student_name (rows g)), s) ∧
  table_document float_str student_name (rows g) =
    page_head student_name +:+
    table_row "th" ["Course Code"; "Course Name"; "Month Year"; "Grade";
                    "Grade Points"; "Credits"; "Result"] +:+ nl +:+ indent 8 +:+
    foldr String.append ""
      (map (λ r, table_row "td"
                   [format float_str (value_at r "Course Code");
                    format float_str (value_at r "Course Name");
                    format float_str (value_at r "Month Year");
                    format float_str (value_at r "Grade");
                    format float_str (value_at r "Grade Points");
                    format float_str (value_at r "Credits");
                    format float_str (value_at r "Result")]) (rows g)) +:+
    html_close ∧
  (∀ t, format float_str (Str t) = t) ∧
  (no_markup student_name = true →
   Forall (λ r, Forall (λ c, no_markup (format float_str (value_at r c)) = true)
                  table_columns) (rows g) →
   occurrences "<tr>" (table_document float_str student_name (rows g))
   = 1 + length (rows g)).
Proof.
  intros Hcols. split; [by apply html_content_present|].
  split; [reflexivity|]. split; [done|].
  intros Hname Hcells. by apply table_row_count.
Qed.

(** C2: [send_email] always returns an outcome and never raises.  When
    the body of its [try] raises with text e (a missing column while
    rendering, or the first library call that fails: building the MIME
    parts, connecting, TLS, login, submission) the outcome has status
    error and carries e; when the body completes the outcome has status
    success. *)
Theorem C2_send_email_captures_failures (to : cell) (student_name : string)
    (df : DataFrame) s :
  ∃ o s',
    send_email float_str to student_name df s = (Val o, s') ∧
    match send_email_body float_str to student_name df s with
    | (Val _, s1) => o = sent to ∧ s' = s1
    | (Raise e, s1) => o = failed to e ∧ s' = s1
    | (Halt, _) => False
    end ∧
    fst (html_content float_str student_name df s) ≠ Halt ∧
    o = match fst (html_content float_str student_name df s) with
        | Val html =>
            match first_fault (world s) (messages (world s))
                    (envelope (world s) to student_name html) with
            | Some e => failed to e
            | None => sent to
            end
        | Raise e => failed to e
        | Halt => sent to
        end ∧
    status (sent to) = "success" ∧
    ∀ e, status (failed to e) = "error" ∧ error (failed to e) = Some e.
Proof.
  unfold send_email, try_except. rewrite send_email_body_spec.
  destruct (html_content_pure float_str student_name df) as (r & Hr & Heq).
  rewrite Heq. cbn [fst]. destruct r as [html|e|]; [| |done].
  - cbn zeta. destruct (first_fault _ _ _) as [e|]; eauto 10.
  - eauto 10.
Qed.

Lemma failed_recipients_loop (total idx : nat) (todo : list (string * DataFrame)) :
  failed_recipients (loop_events total idx todo) = [].
Proof.
  revert idx. induction todo as [|[name g] todo IH]; intros idx; [done|].
  cbn [loop_events]. unfold failed_recipients in *. rewrite omap_app.
  cbn. rewrite IH. by case_decide.
Qed.

Lemma failed_recipients_report (results : list Outcome) :
  Forall outcome_ok results →
  failed_recipients (report results) =
    map to_email (filter (λ r, status r = "error") results).
Proof.
  intros Hall. unfold report, failed_recipients. cbn [omap list_omap].
  assert (Forall (λ r, is_Some (error r)) (filter (λ r, status r = "error") results))
    as Herr.
  { apply Forall_forall. intros r [Hst Hr]%list_elem_of_filter.
    rewrite Forall_forall in Hall. destruct (Hall r Hr) as [[Hs _]|[_ He]]; [|done].
    by rewrite Hs in Hst. }
  assert (∀ errors : list Outcome, Forall (λ r, is_Some (error r)) errors →
          omap (λ e, match e with st_write_failed to _ => Some to | _ => None end)
            (omap (λ r, st_write_failed (to_email r) <$> error r) errors)
          = map to_email errors) as Hlines.
  { intros errors Hs. induction Hs as [|r rs [e He] Hs IH]; [done|].
    cbn. rewrite He. cbn. f_equal. apply IH. }
  destruct (filter (λ r, status r = "error") results) as [|r0 errors]; [done|].
  exact (Hlines (r0 :: errors) Herr).
Qed.

(** C10: the outcome [send_email] returns carries the address it was
    given, whether the send succeeded or failed; hence the recipients
    named in the failure lines of the final report are addresses of
    groups that were attempted: those whose outcome is an error, in
    order. *)
Theorem C10_outcome_names_the_recipient :
  (∀ (to : cell) (student_name : string) (df : DataFrame) s,
     ∃ o s',
       send_email float_str to student_name df s = (Val o, s') ∧
       to_email o = to ∧
       (status o = "success" ∨ status o = "error")) ∧
  (∀ (grouped : list (string * DataFrame)) s,
     Forall student_group grouped →
     ∃ results s1 s2,
       send_all float_str grouped s = (Val results, s1) ∧
       send_emails_handler float_str grouped s = (Val tt, s2) ∧
       map to_email results = map (λ g, first_email (snd g)) grouped ∧
       failed_recipients (ui s2) =
         failed_recipients (ui s) ++
         map to_email (filter (λ r, status r = "error") results)).
Proof.
  split.
  - intros to student_name df s.
    destruct (send_email_spec float_str to student_name df s)
      as (o & w & Hsend & Hto & _ & Hok).
    exists o, (set_world s w). split; [done|]. split; [done|].
    destruct Hok as [[-> _]|[-> _]]; auto.
  - intros grouped s Hwf.
    destruct (send_emails_handler_spec float_str grouped s Hwf)
      as (results & w & Hall & Hrun & Hmap & Hok & _).
    eexists results, _, _. split; [exact Hall|]. split; [exact Hrun|].
    split; [done|]. cbn [ui]. unfold failed_recipients at 1.
    rewrite !omap_app. cbn [omap list_omap].
    fold (failed_recipients (ui s)).
    fold (failed_recipients (loop_events (length grouped) 0 grouped)).
    fold (failed_recipients (report results)).
    rewrite failed_recipients_loop, failed_recipients_report by done.
    by rewrite app_nil_r.
Qed.

End SenderClaims.

Lemma C7_html_table_witness :
  let s := Sample.start Sample.quiet None [] in
  html_content Sample.plain "Bob" Sample.bob_alice s =
    (Val (table_document Sample.plain "Bob" (rows Sample.bob_alice)), s) ∧
  occurrences "<tr>" (table_document Sample.plain "Bob" (rows Sample.bob_alice)) = 4.
Proof.
  cbn zeta.
  destruct (C7_html_table Sample.plain "Bob" Sample.bob_alice
              (Sample.start Sample.quiet None []))
    as (Hdoc & _ & _ & Hcount); [compute_done|].
  split; [exact Hdoc|]. apply Hcount; [reflexivity|].
  repeat constructor.
Defined.

Lemma C10_outcome_names_the_recipient_witness :
  let s := Sample.start Sample.second_refused None [] in
  ∃ results s1 s2,
    send_all Sample.plain (groups Sample.three_students) s = (Val results, s1) ∧
    send_emails_handler Sample.plain (groups Sample.three_students) s = (Val tt, s2) ∧
    map to_email results =
      map (λ g, first_email (snd g)) (groups Sample.three_students) ∧
    failed_recipients (ui s2) =
      failed_recipients (ui s) ++
      map to_email (filter (λ r, status r = "error") results).
Proof.
  apply (proj2 (C10_outcome_names_the_recipient Sample.plain)).
  apply groups_student_group. compute_done.
Defined.

(** ** The claims about the orchestrator *)

Section OrchestratorClaims.

Context (float_str : spec_float → string).

Lemma nunique_two (col : list cell) (a b : string) :
  Str a ∈ col → Str b ∈ col → a ≠ b → 1 < nunique col.
Proof.
  intros Ha Hb Hne. unfold nunique.
  assert ([a; b] ⊆+ remove_dups (omap text_of col)) as Hsub.
  { apply NoDup_submseteq.
    - apply NoDup_cons. split; [by intros ?%list_elem_of_singleton|].
      apply NoDup_singleton.
    - intros x Hx. rewrite elem_of_remove_dups, list_elem_of_omap.
      apply elem_of_cons in Hx as [->|Hx].
      + by exists (Str a).
      + apply list_elem_of_singleton in Hx as ->. by exists (Str b). }
  apply submseteq_length in Hsub. cbn in Hsub. lia.
Qed.

Lemma send_email_delivers (to : cell) (student_name : string) (df : DataFrame)
    s o s' :
  table_columns ⊆ columns df →
  send_email float_str to student_name df s = (Val o, s') →
  status o = "success" →
  outbox (world s') =
    outbox (world s) ++
    [envelope (world s) to student_name
       (table_document float_str student_name (rows df))].
Proof.
  intros Hcols. unfold send_email, try_except. rewrite send_email_body_spec.
  rewrite (html_content_present float_str student_name df s Hcols).
  cbn [fst]. cbn zeta. destruct (first_fault _ _ _) as [e|].
  - intros [= <- <-]. by cbn.
  - by intros [= <- <-].
Qed.

(** C3: for groups that each have a row and an address column, the send
    phase makes one attempt per group, in order, whatever the earlier
    outcomes were, and completes; the report then shows as success count
    the number of outcomes with status success and lists exactly the
    outcomes with status error, each with its recipient and its error
    text.  With three groups of which only the second send fails, the
    report is: 2 sent, one failure line naming the second recipient. *)
Theorem C3_every_group_attempted_and_reported (grouped : list (string * DataFrame)) s :
  Forall student_group grouped →
  ∃ results s1 s2,
    send_all float_str grouped s = (Val results, s1) ∧
    send_emails_handler float_str grouped s = (Val tt, s2) ∧
    map to_email results = map (λ g, first_email (snd g)) grouped ∧
    messages (world s1) = messages (world s) + length grouped ∧
    Forall outcome_ok results ∧
    ui s2 = ui s1 ++ report results ∧
    world s2 = world s1 ∧
    report results =
      st_success_sent (length (filter (λ r, status r = "success") results)) ::
      match filter (λ r, status r = "error") results with
      | [] => []
      | errors =>
          st_error "Some emails failed to send:" ::
          omap (λ r, st_write_failed (to_email r) <$> error r) errors
      end ∧
    (∀ g1 g2 g3 r1 r2 r3,
       grouped = [g1; g2; g3] → results = [r1; r2; r3] →
       status r1 = "success" → status r2 = "error" → status r3 = "success" →
       ∃ e, error r2 = Some e ∧
            report results =
              [st_success_sent 2; st_error "Some emails failed to send:";
               st_write_failed (first_email (snd g2)) e]).
Proof.
  intros Hwf.
  destruct (send_emails_handler_spec float_str grouped s Hwf)
    as (results & w & Hall & Hrun & Hmap & Hok & Hcount).
  eexists results, _, _. split; [exact Hall|]. split; [exact Hrun|].
  split; [done|]. split; [done|]. split; [done|]. split; [done|].
  split; [done|]. split; [done|].
  intros g1 g2 g3 r1 r2 r3 -> -> H1 H2 H3.
  cbn in Hmap. injection Hmap as _ Hto _.
  apply Forall_cons in Hok as [_ [Hok2 _]%Forall_cons].
  destruct Hok2 as [[Hs _]|[_ [e He]]]; [by rewrite Hs in H2|].
  exists e. split; [done|]. unfold report.
  rewrite !filter_cons, filter_nil.
  rewrite H1, H2, H3.
  repeat first [rewrite decide_True by done | rewrite decide_False by done].
  cbn. by rewrite He, Hto.
Qed.

(** C4: when the rows of a group carry two different addresses, the
    iteration of the send loop for that group sends to the address of
    the group's first row, emits a warning naming the student and that
    address, and goes on (the progress is updated and the loop
    returns); the message is built from all the rows of the group: when
    the send succeeds the submitted message holds the table of all of
    them.  In particular for the addresses a@x.com, a@x.com, b@x.com in
    that row order the recipient is a@x.com. *)
Theorem C4_first_row_address (student_name : string) (g : DataFrame)
    (total idx : nat) (results : list Outcome) s
    (ra rb : gmap string cell) (a b : string) :
  "parent_email" ∈ columns g →
  ra ∈ rows g → rb ∈ rows g →
  value_at ra "parent_email" = Str a →
  value_at rb "parent_email" = Str b →
  a ≠ b →
  idx < total →
  ∃ r0 rest o w,
    rows g = r0 :: rest ∧
    send_loop float_str total idx [(student_name, g)] results s =
      (Val (results ++ [o]),
       {| ui := ui s ++
                [st_warning_multiple student_name (value_at r0 "parent_email");
                 st_progress (idx + 1) total];
          world := w; input := input s |}) ∧
    to_email o = value_at r0 "parent_email" ∧
    send_email float_str (value_at r0 "parent_email") student_name g
      (display s [st_warning_multiple student_name (value_at r0 "parent_email")])
    = (Val o,
       set_world
         (display s [st_warning_multiple student_name (value_at r0 "parent_email")])
         w) ∧
    (table_columns ⊆ columns g → status o = "success" →
     outbox w =
       outbox (world s) ++
       [envelope (world s) (value_at r0 "parent_email") student_name
          (table_document float_str student_name (rows g))]) ∧
    (∀ r1 r2 r3,
       rows g = [r1; r2; r3] →
       value_at r1 "parent_email" = Str "a@x.com" →
       value_at r2 "parent_email" = Str "a@x.com" →
       value_at r3 "parent_email" = Str "b@x.com" →
       to_email o = Str "a@x.com").
Proof.
  intros Hcol Hra Hrb Ha Hb Hne Hlt.
  destruct (rows g) as [|r0 rest] eqn:Hrows; [by apply not_elem_of_nil in Hra|].
  assert (first_email g = value_at r0 "parent_email") as Hfirst
    by (unfold first_email; by rewrite Hrows).
  assert (1 < nunique (map (λ r, value_at r "parent_email") (rows g))) as Hmany.
  { apply (nunique_two _ a b); [| |done].
    - apply list_elem_of_fmap. exists ra. by rewrite Hrows.
    - apply list_elem_of_fmap. exists rb. by rewrite Hrows. }
  set (warned := display s [st_warning_multiple student_name (value_at r0 "parent_email")]).
  destruct (send_email_spec float_str (value_at r0 "parent_email") student_name g warned)
    as (o & w & Hsend & Hto & Hmsg & Hok).
  exists r0, rest, o, w. split; [done|]. split; [|split; [done|split; [done|split]]].
  - cbn [send_loop].
    erewrite bind_val by (by apply getcol_present).
    erewrite bind_val by (apply iloc0_first; by rewrite Hrows).
    erewrite bind_val by (by apply getcol_present). cbn beta.
    erewrite bind_val by apply warn_step. cbn beta.
    rewrite decide_True by done. rewrite Hfirst. fold (display s [st_warning_multiple student_name (value_at r0 "parent_email")]).
    fold warned. erewrite bind_val by exact Hsend. cbn beta zeta.
    erewrite bind_val by (apply progress_step; lia). cbn beta.
    cbn. by rewrite <- app_assoc.
  - intros Hcols Hsucc.
    pose proof (send_email_delivers _ _ _ _ _ _ Hcols Hsend Hsucc) as Hd.
    rewrite Hrows in Hd. exact Hd.
  - intros r1 r2 r3 [= -> _] H1 _ _. by rewrite Hto.
Qed.

(** C9: when the uploaded table passes the checks and yields no group,
    pressing "Send Emails" completes without error: the display ends
    with the progress bar at 0 and "Sent 0 emails", with no progress
    update, no failure line and no processing error, and the outside
    world is untouched, so no send was attempted. *)
Theorem C9_no_groups_no_sends (df : DataFrame) s :
  uploaded_file (input s) = Some (Parsed df) →
  complete df → addressed df →
  (flagged df = [] ∨ clicked (input s) "Continue anyway" = true) →
  groups df = [] →
  clicked (input s) "Send Emails" = true →
  script float_str s =
    (Val tt, display s (banner ++ ready df ++ [st_progress_start; st_success_sent 0])) ∧
  world (snd (script float_str s)) = world s ∧
  ∀ total idx results s', send_loop float_str total idx (groups df) results s'
                          = (Val results, s').
Proof.
  intros Hup Hc Hall Hgo Hnone Hsend. 
  assert (script float_str s =
    (Val tt, display s (banner ++ ready df ++ [st_progress_start; st_success_sent 0])))
    as Hrun.
  { rewrite (script_upload _ _ _ Hup). unfold try_except.
    rewrite process_validated by done. cbn [input display].
    rewrite Hsend, Hnone. cbn. unfold display, banner.
    rewrite <- !app_assoc. cbn [app]. rewrite <- ?app_assoc. reflexivity. }
  split; [done|]. split; [by rewrite Hrun|].
  intros total idx results s'. by rewrite Hnone.
Qed.

End OrchestratorClaims.

(** ** The e-mail pattern *)

Section EmailPattern.

Lemma all_chars_ext (p q : ascii → bool) (s : string) :
  (∀ c, p c = q c) → all_chars p s = all_chars q s.
Proof. intros H. induction s as [|c s IH]; [done|]. cbn. by rewrite H, IH. Qed.

Lemma many_true (k : ascii → bool) (cont : string → bool) (s : string) :
  Re.many k cont s = true ↔
  ∃ p q, s = p +:+ q ∧ all_chars k p = true ∧ cont q = true.
Proof.
  induction s as [|c s IH]; cbn [Re.many].
  - split.
    + intros H. by exists "", "".
    + intros (p & q & Heq & _ & Hq). destruct p; [|done]. by rewrite Heq.
  - rewrite orb_true_iff, andb_true_iff, IH. split.
    + intros [[Hc (p & q & -> & Hp & Hq)]|H].
      * exists (String c p), q. cbn. by rewrite Hc, Hp.
      * by exists "", (String c s).
    + intros (p & q & Heq & Hp & Hq). destruct p as [|c' p].
      * right. by rewrite Heq.
      * rewrite app_String in Heq. injection Heq as -> ->.
        cbn in Hp. apply andb_true_iff in Hp as [Hc Hp]. left.
        split; [done|]. by exists p, q.
Qed.

Lemma at_least_true (n : nat) (k : ascii → bool) (cont : string → bool) (s : string) :
  Re.at_least n k cont s = true ↔
  ∃ p q, s = p +:+ q ∧ all_chars k p = true ∧ n ≤ String.length p ∧ cont q = true.
Proof.
  revert s. induction n as [|n IH]; intros s; cbn [Re.at_least].
  - rewrite many_true. split.
    + intros (p & q & ? & ? & ?). exists p, q. auto with lia.
    + intros (p & q & ? & ? & _ & ?). by exists p, q.
  - destruct s as [|c s].
    + split; [done|]. intros (p & q & Heq & _ & Hlen & _).
      destruct p; [cbn in Hlen; lia|done].
    + rewrite andb_true_iff, IH. split.
      * intros [Hc (p & q & -> & Hp & Hlen & Hq)].
        exists (String c p), q. cbn. rewrite Hc, Hp. auto with lia.
      * intros (p & q & Heq & Hp & Hlen & Hq). destruct p as [|c' p].
        { cbn in Hlen. lia. }
        rewrite app_String in Heq. injection Heq as -> ->.
        cbn in Hp, Hlen. apply andb_true_iff in Hp as [Hc Hp].
        split; [done|]. exists p, q. auto with lia.
Qed.

Lemma local_class (c : ascii) :
  Re.in_class [Re.Range "a" "z"; Re.Range "A" "Z"; Re.Range "0" "9";
               Re.Ch "."; Re.Ch "_"; Re.Ch "%"; Re.Ch "+"; Re.Ch "-"] c
  = local_part_char c.
Proof. destruct c as [[] [] [] [] [] [] [] []]; by vm_compute. Qed.

Lemma domain_class (c : ascii) :
  Re.in_class [Re.Range "a" "z"; Re.Range "A" "Z"; Re.Range "0" "9";
               Re.Ch "."; Re.Ch "-"] c
  = domain_char c.
Proof. destruct c as [[] [] [] [] [] [] [] []]; by vm_compute. Qed.

Lemma alpha_class (c : ascii) :
  Re.in_class [Re.Range "a" "z"; Re.Range "A" "Z"] c = is_alpha c.
Proof. destruct c as [[] [] [] [] [] [] [] []]; by vm_compute. Qed.

Lemma at_eol_true (s : string) : Re.at_eol s = true ↔ s = "" ∨ s = nl.
Proof.
  destruct s as [|c [|c' s]]; cbn.
  - by split; [left|].
  - rewrite Ascii.eqb_eq. unfold nl. split.
    + intros ->. by right.
    + by intros [|[= ->]].
  - split; [done|]. by intros [|].
Qed.

Lemma length_zero (s : string) : 1 ≤ String.length s ↔ s ≠ "".
Proof. destruct s; cbn; split; (done || lia). Qed.

(** The pattern accepts the addresses the words describe, and the same
    followed by one line feed. *)
Lemma email_pattern_words (s : string) :
  Re.re_match email_pattern s = true ↔
  well_formed_email s ∨ ∃ s0, s = s0 +:+ nl ∧ well_formed_email s0.
Proof.
  unfold Re.re_match, email_pattern. cbn [Re.matches andb].
  rewrite at_least_true. split.
  - intros (l & q & -> & Hl & Hlen & Hq).
    destruct q as [|c q]; [done|].
    apply andb_true_iff in Hq as [->%Ascii.eqb_eq Hq].
    apply at_least_true in Hq as (d & q' & -> & Hd & Hdlen & Hq).
    destruct q' as [|c q]; [done|].
    apply andb_true_iff in Hq as [->%Ascii.eqb_eq Hq].
    apply at_least_true in Hq as (t & rest & -> & Ht & Htlen & Hq).
    rewrite andb_true_r in Hq. apply at_eol_true in Hq.
    rewrite (all_chars_ext _ _ _ local_class) in Hl.
    rewrite (all_chars_ext _ _ _ domain_class) in Hd.
    rewrite (all_chars_ext _ _ _ alpha_class) in Ht.
    apply length_zero in Hlen, Hdlen.
    assert (well_formed_email (l +:+ "@" +:+ d +:+ "." +:+ t)) as Hwf
      by (by exists l, d, t).
    destruct Hq as [-> | ->].
    + left. by rewrite append_nil_r.
    + right. exists (l +:+ "@" +:+ d +:+ "." +:+ t). split; [|done].
      rewrite !append_assoc. reflexivity.
  - assert (∀ l d t rest,
              l ≠ "" → all_chars local_part_char l = true →
              d ≠ "" → all_chars domain_char d = true →
              2 ≤ String.length t → all_chars is_alpha t = true →
              rest = "" ∨ rest = nl →
              ∃ p q, l +:+ "@" +:+ d +:+ "." +:+ t +:+ rest = p +:+ q ∧
                all_chars (Re.in_class
                  [Re.Range "a" "z"; Re.Range "A" "Z"; Re.Range "0" "9";
                   Re.Ch "."; Re.Ch "_"; Re.Ch "%"; Re.Ch "+"; Re.Ch "-"]) p = true ∧
                1 ≤ String.length p ∧
                match q with
                | String c' s' =>
                    Ascii.eqb c' "@" &&
                    Re.at_least 1
                      (Re.in_class
                         [Re.Range "a" "z"; Re.Range "A" "Z"; Re.Range "0" "9";
                          Re.Ch "."; Re.Ch "-"])
                      (λ s'0,
                         match s'0 with
                         | String c'0 s'1 =>
                             Ascii.eqb c'0 "." &&
                             Re.at_least 2
                               (Re.in_class [Re.Range "a" "z"; Re.Range "A" "Z"])
                               (λ s'2, Re.at_eol s'2 && true) s'1
                         | EmptyString => false
                         end) s'
                | EmptyString => false
                end = true) as Hback.
    { intros l d t rest Hl1 Hl Hd1 Hd Ht1 Ht Hrest.
      exists l, ("@" +:+ d +:+ "." +:+ t +:+ rest). split; [done|].
      rewrite (all_chars_ext _ _ _ local_class). split; [done|].
      split; [by apply length_zero|].
      change ("@" +:+ d +:+ "." +:+ t +:+ rest)
        with (String "@" (d +:+ "." +:+ t +:+ rest)).
      cbn beta iota. apply andb_true_iff. split; [reflexivity|].
      apply at_least_true. exists d, ("." +:+ t +:+ rest). split; [done|].
      rewrite (all_chars_ext _ _ _ domain_class). split; [done|].
      split; [by apply length_zero|].
      change ("." +:+ t +:+ rest) with (String "." (t +:+ rest)).
      cbn beta iota. apply andb_true_iff. split; [reflexivity|].
      apply at_least_true. exists t, rest. split; [done|].
      rewrite (all_chars_ext _ _ _ alpha_class). split; [done|]. split; [done|].
      rewrite andb_true_r. by apply at_eol_true. }
    intros [(l & d & t & -> & ? & ? & ? & ? & ? & ?)
           |(s0 & -> & l & d & t & -> & ? & ? & ? & ? & ? & ?)].
    + rewrite <- (append_nil_r t). by apply Hback; auto.
    + rewrite !append_assoc. apply Hback; auto.
Qed.

Lemma string_last_cons (c : ascii) (s : string) :
  s ≠ "" → string_last (String c s) = string_last s.
Proof. by destruct s. Qed.

Lemma app_nonempty_r (a b : string) : b ≠ "" → a +:+ b ≠ "".
Proof. by destruct a. Qed.

Lemma string_last_app (a b : string) :
  b ≠ "" → string_last (a +:+ b) = string_last b.
Proof.
  intros Hb. induction a as [|c a IH]; [done|].
  rewrite app_String, string_last_cons; [done|].
  destruct a; [done|]. by rewrite app_String.
Qed.

Lemma all_chars_last (p : ascii → bool) (s : string) (c : ascii) :
  all_chars p s = true → string_last s = Some c → p c = true.
Proof.
  induction s as [|c' s IH]; [done|]. cbn [all_chars].
  intros [Hc Hs]%andb_true_iff. destruct s as [|c'' s].
  - cbn. by intros [= <-].
  - rewrite string_last_cons by done. by apply IH.
Qed.

(** No address of the described form ends with a line feed. *)
Lemma well_formed_no_trailing_newline (s0 : string) :
  ¬ well_formed_email (s0 +:+ nl).
Proof.
  intros (l & d & t & Heq & _ & _ & _ & _ & Hlen & Ht).
  assert (t ≠ "") as Hne by (destruct t; [cbn in Hlen; lia|done]).
  assert (string_last (s0 +:+ nl) = Some "010"%char) as Hlast
    by (by rewrite string_last_app).
  rewrite Heq in Hlast.
  rewrite !string_last_app in Hlast by (repeat apply app_nonempty_r; done).
  by apply (all_chars_last _ _ _ Ht) in Hlast.
Qed.

(** Which rows the e-mail check flags. *)
Lemma elem_of_flagged (df : DataFrame) (r : gmap string cell) :
  r ∈ flagged df ↔
  r ∈ rows df ∧
  ∃ e, value_at r "parent_email" = Str e ∧
       ¬ (well_formed_email e ∨ ∃ s0, e = s0 +:+ nl ∧ well_formed_email s0).
Proof.
  unfold flagged. rewrite list_elem_of_filter.
  assert (Re.re_match email_pattern <$> text_of (value_at r "parent_email") = Some false
          ↔ ∃ e, value_at r "parent_email" = Str e ∧
                 ¬ (well_formed_email e ∨ ∃ s0, e = s0 +:+ nl ∧ well_formed_email s0))
    as Hiff; [|tauto].
  destruct (value_at r "parent_email") as [e|x];
    cbn [text_of fmap option_fmap option_map].
  - split.
    + intros [= H]. exists e. split; [done|].
      rewrite <- email_pattern_words. by rewrite H.
    + intros (e' & [= <-] & H). rewrite <- email_pattern_words in H.
      f_equal. by apply not_true_is_false.
  - split; [done|]. by intros (e & ? & _).
Qed.

End EmailPattern.

(** ** The claims about validation *)

Section ValidationClaims.

Context (float_str : spec_float → string).

(** When student_name is present and another required column is not,
    the run stops on the schema error, which names the missing columns
    and nothing else, and the outside world is untouched. *)
Lemma schema_error_names_missing (df : DataFrame) s :
  uploaded_file (input s) = Some (Parsed df) →
  "student_name" ∈ columns df →
  ¬ complete df →
  ∃ missing : gset string,
    script float_str s =
      (Halt, display s (banner ++ preview df ++ [totals df; st_error_missing missing])) ∧
    ∀ c, c ∈ missing ↔ c ∈ required_columns ∧ c ∉ columns df.
Proof.
  intros Hup H1 Hn. exists (required_columns ∖ list_to_set (columns df)). split.
  - rewrite (script_upload _ _ _ Hup). unfold try_except.
    rewrite process_incomplete by done. by rewrite display_display.
  - intros c. by rewrite elem_of_difference, elem_of_list_to_set.
Qed.

(** When student_name itself is missing, the count of unique students
    at line 111 raises before the schema check is reached. *)
Lemma names_missing_generic_error (df : DataFrame) s :
  uploaded_file (input s) = Some (Parsed df) →
  "student_name" ∉ columns df →
  script float_str s =
    (Val tt, display s (banner ++ preview df ++ [st_error_processing "'student_name'"])).
Proof.
  intros Hup Hn. rewrite (script_upload _ _ _ Hup). unfold try_except.
  rewrite process_no_names by done. rewrite emit_step, !display_display.
  by rewrite <- ?app_assoc.
Qed.

(** When some address is flagged and the operator has not pressed
    "Continue anyway", the run stops after showing the flagged
    (student_name, parent_email) pairs: nothing is sent and no report is
    shown. *)
Lemma unconfirmed_run_stops (df : DataFrame) s :
  uploaded_file (input s) = Some (Parsed df) →
  complete df → addressed df → flagged df ≠ [] →
  clicked (input s) "Continue anyway" = false →
  script float_str s =
    (Halt,
     display s (banner ++ preview df ++
                [totals df; st_warning "Invalid email addresses found:";
                 st_dataframe (flagged_pairs df); st_button "Continue anyway"])).
Proof.
  intros Hup Hc Hall Hf Hno. rewrite (script_upload _ _ _ Hup). unfold try_except.
  rewrite process_unconfirmed by done. rewrite display_display.
  unfold email_warning. by destruct (flagged df).
Qed.

(** C5, at a file that lacks student_name and Grade Points: the run ends
    with the generic processing error for 'student_name'; no schema error
    is shown and Grade Points is not named. *)
Theorem C5_missing_student_name_skips_schema_error (w : World) (pressed : list string) :
  let s := Sample.start w (Some (Parsed Sample.nameless)) pressed in
  required_columns ∖ list_to_set (columns Sample.nameless)
    = ({[ "student_name"; "Grade Points" ]} : gset string) ∧
  script float_str s =
    (Val tt,
     display s (banner ++ preview Sample.nameless ++
                [st_error_processing "'student_name'"])).
Proof.
  cbn zeta. split; [compute_done|].
  apply names_missing_generic_error; [done|compute_done].
Qed.

(** C6, at an address that ends with a line feed: it is not of the form
    the specification describes, yet the pattern accepts it, the row is
    not flagged and the e-mail check passes without a warning. *)
Theorem C6_trailing_newline_not_flagged (w : World) (pressed : list string) :
  let s := Sample.start w (Some (Parsed Sample.trailing_newline)) pressed in
  ¬ well_formed_email ("dan@x.com" +:+ nl) ∧
  Re.re_match email_pattern ("dan@x.com" +:+ nl) = true ∧
  flagged Sample.trailing_newline = [] ∧
  validate_emails Sample.trailing_newline s = (Val tt, s).
Proof.
  cbn zeta. split; [apply well_formed_no_trailing_newline|].
  split; [by vm_compute|]. split; [by vm_compute|].
  rewrite validate_emails_spec.
  - replace (flagged Sample.trailing_newline) with (@nil (gmap string cell))
      by (by vm_compute).
    unfold email_warning.
    replace (flagged Sample.trailing_newline) with (@nil (gmap string cell))
      by (by vm_compute).
    by rewrite display_nil.
  - compute_done.
  - compute_done.
  - repeat constructor. by eexists.
Qed.

End ValidationClaims.

(** ** Instances on the sample data *)

Lemma C3_every_group_attempted_and_reported_witness :
  let s := Sample.start Sample.second_refused None [] in
  let grouped := groups Sample.three_students in
  Forall student_group grouped ∧
  ∃ results s2,
    send_emails_handler Sample.plain grouped s = (Val tt, s2) ∧
    map to_email results = map (λ g, first_email (snd g)) grouped ∧
    Forall outcome_ok results.
Proof.
  cbn zeta.
  assert (Forall student_group (groups Sample.three_students)) as Hwf
    by (apply groups_student_group; compute_done).
  split; [exact Hwf|].
  destruct (C3_every_group_attempted_and_reported Sample.plain
              (groups Sample.three_students)
              (Sample.start Sample.second_refused None []) Hwf)
    as (results & s1 & s2 & _ & Hrun & Hmap & _ & Hok & _).
  exists results, s2. auto.
Defined.

Lemma C4_first_row_address_witness :
  let s := Sample.start Sample.quiet None [] in
  ∃ o w,
    send_loop Sample.plain 1 0 [("Carol", Sample.two_addresses)] [] s =
      (Val [o],
       {| ui := [st_warning_multiple "Carol" (Str "a@x.com"); st_progress 1 1];
          world := w; input := input s |}) ∧
    to_email o = Str "a@x.com".
Proof.
  cbn zeta.
  destruct (C4_first_row_address Sample.plain "Carol" Sample.two_addresses 1 0 []
              (Sample.start Sample.quiet None [])
              (Sample.row "Carol" "a@x.com" "MA201")
              (Sample.row "Carol" "b@x.com" "PH203") "a@x.com" "b@x.com")
    as (r0 & rest & o & w & Hrows & Hloop & Hto & _).
  - compute_done.
  - compute_done.
  - compute_done.
  - by vm_compute.
  - by vm_compute.
  - done.
  - lia.
  - injection Hrows as <- <-. exists o, w. split; [exact Hloop|exact Hto].
Defined.

Lemma C9_no_groups_no_sends_witness :
  let s := Sample.start Sample.quiet (Some (Parsed Sample.no_rows)) ["Send Emails"] in
  script Sample.plain s =
    (Val tt,
     display s (banner ++ ready Sample.no_rows ++ [st_progress_start; st_success_sent 0])) ∧
  world (snd (script Sample.plain s)) = world s ∧
  ∀ total idx results s',
    send_loop Sample.plain total idx (groups Sample.no_rows) results s' = (Val results, s').
Proof.
  apply (C9_no_groups_no_sends Sample.plain Sample.no_rows).
  - reflexivity.
  - apply complete_no_missing. compute_done.
  - constructor.
  - left. reflexivity.
  - reflexivity.
  - reflexivity.
Defined.

(** Three students, the transport refusing the second message: all three
    are attempted, two messages are submitted, and the report names the
    second recipient. *)
Example three_students_second_refused :
  let s := Sample.start Sample.second_refused
             (Some (Parsed Sample.three_students)) ["Send Emails"] in
  ∃ s',
    script Sample.plain s = (Val tt, s') ∧
    drop (length (banner ++ ready Sample.three_students)) (ui s') =
      [st_progress_start; st_progress 1 3; st_progress 2 3; st_progress 3 3;
       st_success_sent 2; st_error "Some emails failed to send:";
       st_write_failed (Str "ben@x.com") "Connection unexpectedly closed"] ∧
    messages (world s') = 3 ∧
    map msg_to (outbox (world s')) = [Str "ann@x.com"; Str "cid@x.com"].
Proof.
  cbn zeta. eexists. split; [by vm_compute|]. by vm_compute.
Qed.

Example email_accepts : Re.re_match email_pattern "a.b+c@mail.example.org" = true.
Proof. reflexivity. Qed.

Example email_rejects : Re.re_match email_pattern "not-an-email" = false.
Proof. reflexivity. Qed.

Example email_rejects_short_label : Re.re_match email_pattern "a@x.c" = false.
Proof. reflexivity. Qed.

(** ** Further properties of one execution *)

Section RunProperties.

Context (float_str : spec_float → string).

Lemma complete_dec (df : DataFrame) : complete df ∨ ¬ complete df.
Proof.
  destruct (decide (required_columns ∖ list_to_set (columns df) = (∅ : gset string)))
    as [H|H].
  - left. by apply complete_no_missing.
  - right. by rewrite complete_no_missing.
Qed.

Lemma addressed_dec (df : DataFrame) : addressed df ∨ ¬ addressed df.
Proof. unfold addressed. destruct (decide (Forall (λ r, is_Some (text_of (value_at r "parent_email"))) (rows df))); auto. Qed.

Lemma script_unreadable (e : string) s :
  uploaded_file (input s) = Some (Unreadable e) →
  script float_str s = (Val tt, display s (banner ++ [st_error_processing e])).
Proof.
  intros Hup. rewrite (script_upload _ _ _ Hup). unfold try_except, process.
  erewrite bind_raise by reflexivity. by rewrite emit_step, display_display.
Qed.

Lemma script_missing_address (df : DataFrame) s :
  uploaded_file (input s) = Some (Parsed df) →
  complete df → ¬ addressed df →
  script float_str s =
    (Val tt,
     display s (banner ++ preview df ++
                [totals df;
                 st_error_processing "bad operand type for unary ~: 'float'"])).
Proof.
  intros Hup Hc Hn. rewrite (script_upload _ _ _ Hup). unfold try_except.
  rewrite process_missing_address by done. rewrite emit_step, !display_display.
  by rewrite <- ?app_assoc.
Qed.

Lemma script_not_sending (df : DataFrame) s :
  uploaded_file (input s) = Some (Parsed df) →
  complete df → addressed df →
  (flagged df = [] ∨ clicked (input s) "Continue anyway" = true) →
  clicked (input s) "Send Emails" = false →
  script float_str s = (Val tt, display s (banner ++ ready df)).
Proof.
  intros Hup Hc Ha Hgo Hno. rewrite (script_upload _ _ _ Hup). unfold try_except.
  rewrite process_validated by done. cbn [input display]. rewrite Hno.
  by rewrite display_display.
Qed.

(** X1: an execution in which "Send Emails" does not report a click leaves
    the outside world as it was, whatever was uploaded and whatever else was
    pressed: no message is built and none is submitted. *)
Theorem X1_nothing_sent_without_send_click s :
  clicked (input s) "Send Emails" = false →
  world (snd (script float_str s)) = world s.
Proof.
  intros Hno. destruct (uploaded_file (input s)) as [[e|df]|] eqn:Hup.
  - by rewrite (script_unreadable e s Hup).
  - destruct (decide ("student_name" ∈ columns df)) as [H1|H1];
      [|by rewrite (names_missing_generic_error float_str df s Hup H1)].
    destruct (complete_dec df) as [Hc|Hc]; last first.
    { by destruct (schema_error_names_missing float_str df s Hup H1 Hc)
        as (missing & -> & _). }
    destruct (addressed_dec df) as [Ha|Ha];
      [|by rewrite (script_missing_address df s Hup Hc Ha)].
    destruct (decide (flagged df = [])) as [Hf|Hf].
    { rewrite (script_not_sending df s Hup Hc Ha); auto. }
    destruct (clicked (input s) "Continue anyway") eqn:Hgo.
    + rewrite (script_not_sending df s Hup Hc Ha); auto.
    + by rewrite (unconfirmed_run_stops float_str df s Hup Hc Ha Hf Hgo).
  - by rewrite (script_idle float_str s Hup).
Qed.

(** X2: when [pd.read_csv] raises, the execution shows the banner and then
    "Error processing file:" with the text of the exception, shows no
    preview, and leaves the outside world as it was. *)
Theorem X2_unreadable_file_is_reported (e : string) s :
  uploaded_file (input s) = Some (Unreadable e) →
  script float_str s = (Val tt, display s (banner ++ [st_error_processing e])) ∧
  world (snd (script float_str s)) = world s.
Proof. intros Hup. by rewrite (script_unreadable e s Hup). Qed.

(** X3: when the table has the column student_name and lacks another
    required column, the execution stops at the schema error, whatever
    buttons were pressed: the error names exactly the required columns the
    table lacks, the e-mail check and the send button are not reached, and
    the outside world is as it was. *)
Theorem X3_schema_error_names_the_missing_columns (df : DataFrame) s :
  uploaded_file (input s) = Some (Parsed df) →
  "student_name" ∈ columns df →
  ¬ complete df →
  ∃ missing : gset string,
    script float_str s =
      (Halt, display s (banner ++ preview df ++ [totals df; st_error_missing missing])) ∧
    missing ≠ ∅ ∧
    (∀ c, c ∈ missing ↔ c ∈ required_columns ∧ c ∉ columns df) ∧
    world (snd (script float_str s)) = world s.
Proof.
  intros Hup H1 Hc.
  destruct (schema_error_names_missing float_str df s Hup H1 Hc)
    as (missing & Hrun & Hin).
  exists missing. split; [done|]. split; [|split; [done|by rewrite Hrun]].
  intros ->. apply Hc. intros c Hc'. destruct (decide (c ∈ columns df)); [done|].
  exfalso. apply (not_elem_of_empty (C:=gset string) c). by apply Hin.
Qed.

(** X4: when the e-mail check flags a row and "Continue anyway" does not
    report a click, the execution stops after showing the warning, the
    (student_name, parent_email) pairs of the flagged rows and the button,
    even if "Send Emails" reports a click: the send button is not drawn,
    no report is shown and the outside world is as it was. *)
Theorem X4_flagged_and_unconfirmed_stops (df : DataFrame) s :
  uploaded_file (input s) = Some (Parsed df) →
  complete df → addressed df → flagged df ≠ [] →
  clicked (input s) "Continue anyway" = false →
  script float_str s =
    (Halt,
     display s (banner ++ preview df ++
                [totals df; st_warning "Invalid email addresses found:";
                 st_dataframe (flagged_pairs df); st_button "Continue anyway"])) ∧
  columns (flagged_pairs df) = ["student_name"; "parent_email"] ∧
  length (rows (flagged_pairs df)) = length (flagged df) ∧
  world (snd (script float_str s)) = world s.
Proof.
  intros Hup Hc Ha Hf Hgo.
  rewrite (unconfirmed_run_stops float_str df s Hup Hc Ha Hf Hgo).
  split; [done|]. split; [done|]. split; [|done].
  unfold flagged_pairs. cbn. by rewrite length_map.
Qed.

(** X5: a file with a flagged address is not sent in an execution in which
    at most one of the two buttons reports a click (a Streamlit button
    reports its click only in the execution that click triggers): without
    "Continue anyway" the execution stops before the send button, and
    without "Send Emails" nothing is sent. *)
Theorem X5_flagged_file_needs_both_clicks (df : DataFrame) s :
  uploaded_file (input s) = Some (Parsed df) →
  complete df → addressed df → flagged df ≠ [] →
  clicked (input s) "Continue anyway" = false ∨ clicked (input s) "Send Emails" = false →
  world (snd (script float_str s)) = world s ∧
  fst (script float_str s) =
    if clicked (input s) "Continue anyway" then Val tt else Halt.
Proof.
  intros Hup Hc Ha Hf Hone.
  destruct (clicked (input s) "Continue anyway") eqn:Hgo.
  - destruct Hone as [|Hno]; [done|].
    by rewrite (script_not_sending df s Hup Hc Ha); [|auto|done].
  - by rewrite (unconfirmed_run_stops float_str df s Hup Hc Ha Hf Hgo).
Qed.

(** X6: a table that has the required columns and holds a row with an
    empty parent_email stops at the e-mail check with a processing error
    (the [~] of line 122 raises on the missing value): nothing is flagged,
    the send button is not drawn and the outside world is as it was. *)
Theorem X6_empty_address_is_a_processing_error (df : DataFrame) s :
  uploaded_file (input s) = Some (Parsed df) →
  complete df → ¬ addressed df →
  script float_str s =
    (Val tt,
     display s (banner ++ preview df ++
                [totals df;
                 st_error_processing "bad operand type for unary ~: 'float'"])) ∧
  world (snd (script float_str s)) = world s.
Proof. intros Hup Hc Hn. by rewrite (script_missing_address df s Hup Hc Hn). Qed.

End RunProperties.

(** ** Further properties of the e-mail check and of the mail sender *)

Section SenderProperties.

Context (float_str : spec_float → string).

(** X7: the pattern of line 122 accepts exactly the texts of the form
    local-part@domain.tld (local part of letters, digits and ._%+-, domain
    of letters, digits, dots and hyphens, final label of two or more
    letters), and those texts followed by one line feed; the two cases
    exclude each other. *)
Theorem X7_email_pattern_in_words (e : string) :
  (Re.re_match email_pattern e = true ↔
   well_formed_email e ∨ ∃ e0, e = e0 +:+ nl ∧ well_formed_email e0) ∧
  ¬ (well_formed_email e ∧ ∃ e0, e = e0 +:+ nl ∧ well_formed_email e0).
Proof.
  split; [apply email_pattern_words|].
  intros [Hwf (e0 & -> & _)]. by apply well_formed_no_trailing_newline in Hwf.
Qed.

(** X8: on a table whose addresses are all present, the selection of line
    122 keeps the columns and returns, in their order in the table, exactly
    the rows whose address the pattern rejects; no state is touched. *)
Theorem X8_invalid_rows_selected_in_order (df : DataFrame) s :
  "parent_email" ∈ columns df →
  addressed df →
  ∃ invalid,
    invalid_emails df s = (Val invalid, s) ∧
    columns invalid = columns df ∧
    rows invalid `sublist_of` rows df ∧
    ∀ r, r ∈ rows invalid ↔
         r ∈ rows df ∧
         ∃ e, value_at r "parent_email" = Str e ∧ Re.re_match email_pattern e = false.
Proof.
  intros Hcol Ha. exists {| columns := columns df; rows := flagged df |}.
  split; [by apply invalid_emails_text|]. split; [done|].
  split; [apply sublist_filter|].
  intros r. cbn [rows]. unfold flagged. rewrite list_elem_of_filter.
  split.
  - intros [Hm Hr]. split; [done|].
    destruct (value_at r "parent_email") as [e|]; [|done].
    exists e. split; [done|].
    cbn [text_of fmap option_fmap option_map] in Hm. by injection Hm.
  - intros [Hr (e & -> & Hm)]. split; [|done].
    cbn [text_of fmap option_fmap option_map]. by rewrite Hm.
Qed.



(** X10: when the frame given to [send_email] has a row and lacks a column
    of the table, the call returns the error outcome whose text is the
    KeyError of the first such column in table order; the message was
    counted, and nothing is submitted and no library call is consulted. *)
Theorem X10_missing_table_column (to : cell) (student_name : string)
    (df : DataFrame) s (before after : list string) (c : string) :
  rows df ≠ [] →
  table_columns = before ++ c :: after →
  Forall (λ c', c' ∈ columns df) before →
  c ∉ columns df →
  send_email float_str to student_name df s =
    (Val {| status := "error"; to_email := to; error := Some ("'" +:+ c +:+ "'") |},
     set_world s (count_message (world s))) ∧
  outbox (world (snd (send_email float_str to student_name df s))) = outbox (world s).
Proof.
  intros Hrows Hsplit Hbefore Hc.
  assert (send_email float_str to student_name df s =
            (Val (failed to (key_error c)), set_world s (count_message (world s))))
    as Hrun; [|by rewrite Hrun].
  destruct (rows df) as [|r rs] eqn:Hr; [done|].
  unfold send_email, try_except, send_email_body, new_message, sender, html_content.
  unfold bind at 1. unfold bind at 1. unfold bind at 1. rewrite Hr.
  cbn [html_rows]. unfold table_columns in Hsplit.
  repeat (destruct before as [|? before];
          [injection Hsplit as <- <-;
           repeat match goal with
                  | H : Forall _ (_ :: _) |- _ => apply Forall_cons in H as [? H]
                  end;
           unfold bind, getitem;
           repeat (rewrite decide_True by done);
           by rewrite decide_False by done
          |injection Hsplit as <- Hsplit]).
  by destruct before.
Qed.

(** X11: for a frame without rows the row loop reads nothing, so whatever
    columns the frame has the document is the page with the header row
    alone. *)
Theorem X11_no_rows_header_only (student_name : string) (df : DataFrame) s :
  rows df = [] →
  html_content float_str student_name df s =
    (Val (page_head student_name +:+
          table_row "th" ["Course Code"; "Course Name"; "Month Year"; "Grade";
                          "Grade Points"; "Credits"; "Result"] +:+
          nl +:+ indent 8 +:+ html_close), s).
Proof.
  intros Hr. unfold html_content. rewrite Hr. cbn [html_rows].
  erewrite bind_val by reflexivity. unfold ret. rewrite html_open_head.
  by rewrite !append_assoc.
Qed.

End SenderProperties.

(** ** Further properties of the send loop *)

Section LoopProperties.

Context (float_str : spec_float → string).

Lemma filter_success_cons (o : Outcome) (l : list Outcome) :
  outcome_ok o →
  filter (λ r, status r = "success") (o :: l) =
    (if decide (status o = "success") then [o] else []) ++
    filter (λ r, status r = "success") l.
Proof. intros _. rewrite filter_cons. by case_decide. Qed.



Lemma outcomes_split (results : list Outcome) :
  Forall outcome_ok results →
  length (filter (λ r, status r = "success") results) +
  length (filter (λ r, status r = "error") results) = length results.
Proof.
  induction 1 as [|r rs Hr Hrs IH]; [done|].
  rewrite !filter_cons.
  destruct Hr as [[Hs _]|[Hs _]]; rewrite Hs.
  - rewrite decide_True by done. rewrite decide_False by done. cbn. lia.
  - rewrite decide_False by done. rewrite decide_True by done. cbn. lia.
Qed.

(** X13: the report accounts for every group once: the success count it
    shows plus the number of its failure lines is the number of groups. *)
Theorem X13_report_accounts_for_every_group (grouped : list (string * DataFrame)) s :
  Forall student_group grouped →
  ∃ (n : nat) (failures : list event) s2,
    send_emails_handler float_str grouped s = (Val tt, s2) ∧
    ui s2 =
      ui s ++ st_progress_start :: loop_events (length grouped) 0 grouped ++
      st_success_sent n ::
      match failures with
      | [] => []
      | _ :: _ => st_error "Some emails failed to send:" :: failures
      end ∧
    Forall (λ e, ∃ to text, e = st_write_failed to text) failures ∧
    n + length failures = length grouped.
Proof.
  intros Hwf.
  destruct (send_emails_handler_spec float_str grouped s Hwf)
    as (results & w & _ & Hrun & Hmap & Hok & _).
  assert (Forall (λ r, is_Some (error r)) (filter (λ r, status r = "error") results))
    as Herr.
  { apply Forall_forall. intros r [Hst Hr]%list_elem_of_filter.
    rewrite Forall_forall in Hok. destruct (Hok r Hr) as [[Hs _]|[_ He]]; [|done].
    by rewrite Hs in Hst. }
  exists (length (filter (λ r, status r = "success") results)),
         (omap (λ r, st_write_failed (to_email r) <$> error r)
            (filter (λ r, status r = "error") results)).
  eexists. split; [exact Hrun|].
  assert (length (omap (λ r, st_write_failed (to_email r) <$> error r)
                    (filter (λ r, status r = "error") results))
          = length (filter (λ r, status r = "error") results)) as Hlen.
  { induction Herr as [|r rs [e He] Herr IH]; [done|].
    cbn. rewrite He. cbn. by rewrite IH. }
  split; [|split].
  - cbn [ui]. unfold report. rewrite <- app_assoc. cbn [app]. do 3 f_equal.
    destruct (filter (λ r, status r = "error") results) as [|r0 errs] eqn:Hf; [done|].
    apply Forall_cons in Herr as [[e He] _]. cbn. by rewrite He.
  - apply Forall_forall. intros e (r & _ & Hr)%list_elem_of_omap.
    destruct (error r) as [text|]; [|done]. injection Hr as <-. eauto.
  - rewrite Hlen, outcomes_split by done.
    by rewrite <- (length_map to_email), Hmap, length_map.
Qed.

Lemma progress_of_loop (total idx : nat) (todo : list (string * DataFrame)) :
  progress_of (loop_events total idx todo) =
    map (λ i, (S i, total)) (seq idx (length todo)).
Proof.
  revert idx. induction todo as [|[name g] todo IH]; intros idx; [done|].
  cbn [loop_events length seq map]. unfold progress_of in *. rewrite omap_app.
  cbn [omap list_omap]. rewrite IH. rewrite Nat.add_1_r. by case_decide.
Qed.

(** X14: the loop updates the progress bar once per group, with the values
    1/n, 2/n, ..., n/n for n groups, in this order: the progress never
    exceeds 1, grows with every group and ends at n/n. *)
Theorem X14_progress_counts_up (grouped : list (string * DataFrame)) s :
  Forall student_group grouped →
  ∃ results s1,
    send_all float_str grouped s = (Val results, s1) ∧
    progress_of (ui s1) =
      progress_of (ui s) ++
      map (λ i, (i, length grouped)) (seq 1 (length grouped)).
Proof.
  intros Hwf.
  destruct (send_all_spec float_str grouped s Hwf) as (results & w & Hall & _).
  eexists results, _. split; [exact Hall|]. cbn [ui].
  unfold progress_of at 1. rewrite omap_app. cbn [omap list_omap].
  fold (progress_of (ui s)).
  fold (progress_of (loop_events (length grouped) 0 grouped)).
  rewrite progress_of_loop. f_equal. by rewrite <- seq_shift, map_map.
Qed.

Lemma nunique_same (col : list cell) (a : string) :
  Forall (λ c, c = Str a) col → nunique col ≤ 1.
Proof.
  intros Hall. unfold nunique.
  assert (remove_dups (omap text_of col) ⊆+ [a]) as Hsub.
  { apply NoDup_submseteq; [apply NoDup_remove_dups|].
    intros x. rewrite elem_of_remove_dups, list_elem_of_omap.
    intros (c & Hc & Hx). rewrite Forall_forall in Hall.
    rewrite (Hall c Hc) in Hx. injection Hx as <-. by left. }
  by apply submseteq_length in Hsub.
Qed.

Lemma warned_students_loop (total idx : nat) (todo : list (string * DataFrame)) :
  warned_students (loop_events total idx todo) =
    map fst (filter (λ g, 1 < nunique (map (λ r, value_at r "parent_email")
                                         (rows (snd g)))) todo).
Proof.
  revert idx. induction todo as [|[name g] todo IH]; intros idx; [done|].
  cbn [loop_events]. unfold warned_students in *. rewrite omap_app.
  cbn [omap list_omap]. rewrite IH, filter_cons. cbn [snd].
  by case_decide.
Qed.

(** X15: the warning about several addresses is shown for exactly the
    groups whose rows hold more than one distinct address, once each and
    in the order of the groups; a group whose rows all carry the same
    address gets none. *)
Theorem X15_warnings_only_for_ambiguous_groups (grouped : list (string * DataFrame)) s :
  Forall student_group grouped →
  ∃ results s1,
    send_all float_str grouped s = (Val results, s1) ∧
    warned_students (ui s1) =
      warned_students (ui s) ++
      map fst (filter (λ g, 1 < nunique (map (λ r, value_at r "parent_email")
                                           (rows (snd g)))) grouped) ∧
    ∀ name g a,
      (name, g) ∈ grouped →
      Forall (λ r, value_at r "parent_email" = Str a) (rows g) →
      ¬ 1 < nunique (map (λ r, value_at r "parent_email") (rows g)).
Proof.
  intros Hwf.
  destruct (send_all_spec float_str grouped s Hwf) as (results & w & Hall & _).
  eexists results, _. split; [exact Hall|]. split.
  - cbn [ui]. unfold warned_students at 1. rewrite omap_app. cbn [omap list_omap].
    fold (warned_students (ui s)).
    fold (warned_students (loop_events (length grouped) 0 grouped)).
    by rewrite warned_students_loop.
  - intros name g a _ Hsame.
    assert (nunique (map (λ r, value_at r "parent_email") (rows g)) ≤ 1); [|lia].
    apply (nunique_same _ a). by apply Forall_fmap.
Qed.

End LoopProperties.

(** ** Further properties of grouping and of a whole run *)

Section GroupProperties.

Context (float_str : spec_float → string).

Lemma concat_filter_skip {A} (key : A → option string) (r : A) (l : list A)
    (keys : list string) :
  key r = None →
  concat (map (λ k, filter (λ x, key x = Some k) (r :: l)) keys)
  = concat (map (λ k, filter (λ x, key x = Some k) l) keys).
Proof.
  intros Hr. induction keys as [|k keys IH]; [done|].
  cbn [map concat]. rewrite filter_cons, decide_False by (by rewrite Hr).
  by rewrite IH.
Qed.

Lemma concat_filter_named {A} (key : A → option string) (l : list A)
    (keys : list string) :
  NoDup keys →
  (∀ x k, x ∈ l → key x = Some k → k ∈ keys) →
  concat (map (λ k, filter (λ x, key x = Some k) l) keys)
    ≡ₚ filter (λ x, is_Some (key x)) l.
Proof.
  intros Hnd. induction l as [|r l IH]; intros Hcov.
  - clear Hcov. induction keys as [|k keys IHk]; [done|]. cbn.
    apply NoDup_cons in Hnd as [_ Hnd]. by apply IHk.
  - rewrite filter_cons. destruct (key r) as [k0|] eqn:Hr.
    + rewrite decide_True by done.
      rewrite (concat_filter_cons key r l keys k0); [| done | | done].
      * f_equiv. apply IH. intros x k Hx. apply Hcov. by right.
      * apply (Hcov r); [by left|done].
    + rewrite decide_False by (by intros [??]).
      rewrite concat_filter_skip by done.
      apply IH. intros x k Hx. apply Hcov. by right.
Qed.

(** X16: grouping by student_name leaves out exactly the rows whose name is
    missing and loses or repeats no other row; every group has at least
    one row, all its rows carry the group's name, and it has the columns
    of the table. *)
Theorem X16_groups_cover_the_named_rows (df : DataFrame) s :
  "student_name" ∈ columns df →
  ∃ gs,
    groupby df "student_name" s = (Val gs, s) ∧
    concat (map (λ g, rows (snd g)) gs)
      ≡ₚ filter (λ r, is_Some (text_of (value_at r "student_name"))) (rows df) ∧
    Forall (λ g, rows (snd g) ≠ [] ∧
                 Forall (λ r, value_at r "student_name" = Str (fst g)) (rows (snd g)) ∧
                 rows (snd g) `sublist_of` rows df ∧
                 columns (snd g) = columns df) gs.
Proof.
  intros H1. exists (groups df). split; [by apply groupby_present|]. split.
  - unfold groups. rewrite map_map. cbn.
    apply (concat_filter_named (λ r, text_of (value_at r "student_name"))).
    + apply group_keys_NoDup.
    + intros r k Hr Hk. apply elem_of_group_keys, list_elem_of_fmap.
      exists r. split; [|done]. symmetry. by apply text_of_Some.
  - unfold groups. apply Forall_forall.
    intros g (key & -> & Hkey)%list_elem_of_fmap. cbn.
    split; [|split; [|split; [apply sublist_filter|done]]].
    + apply elem_of_group_keys, list_elem_of_fmap in Hkey as (r & Hr & Hin).
      intros Hnil.
      assert (r ∈ filter (λ r, text_of (value_at r "student_name") = Some key) (rows df))
        as Hf by (apply list_elem_of_filter; split; [by rewrite <- Hr|done]).
      rewrite Hnil in Hf. by apply not_elem_of_nil in Hf.
    + apply Forall_forall. intros r [Hk _]%list_elem_of_filter.
      by apply text_of_Some.
Qed.

(** X17: the number of unique students shown after the upload (line 111)
    is the number of groups the send loop iterates over (line 138). *)
Theorem X17_unique_students_is_the_number_of_groups (df : DataFrame) s :
  "student_name" ∈ columns df →
  ∃ names gs,
    getcol df "student_name" s = (Val names, s) ∧
    groupby df "student_name" s = (Val gs, s) ∧
    nunique names = length gs.
Proof.
  intros H1. eexists _, _. split; [by apply getcol_present|].
  split; [by apply groupby_present|].
  by rewrite length_map, group_keys_length.
Qed.

(** X18: for a table that has the required columns and an address in
    every row, with no address flagged or "Continue anyway" clicked, and
    "Send Emails" clicked, the execution completes (no processing error
    and no stop): after the banner, the preview and the buttons it shows
    the progress and the report, one send was attempted per group, in
    ascending order of student name, to the address of the group's first
    row; addresses the check flagged are sent to like the others. *)
Theorem X18_confirmed_run_sends_to_every_group (df : DataFrame) s :
  uploaded_file (input s) = Some (Parsed df) →
  complete df → addressed df →
  (flagged df = [] ∨ clicked (input s) "Continue anyway" = true) →
  clicked (input s) "Send Emails" = true →
  ∃ results w,
    script float_str s =
      (Val tt,
       {| ui := ui s ++ banner ++ ready df ++
                st_progress_start ::
                loop_events (length (groups df)) 0 (groups df) ++ report results;
          world := w; input := input s |}) ∧
    map to_email results = map (λ g, first_email (snd g)) (groups df) ∧
    StronglySorted String.le (map fst (groups df)) ∧
    messages w = messages (world s) + length (groups df).
Proof.
  intros Hup Hc Ha Hgo Hsend.
  assert ("parent_email" ∈ columns df) as H2 by (apply Hc; set_solver).
  destruct (send_emails_handler_spec float_str (groups df)
              (display s (banner ++ ready df)) (groups_student_group df H2))
    as (results & w & _ & Hrun & Hmap & _ & Hcount).
  exists results, w. split; [|split; [done|split; [|done]]].
  - rewrite (script_upload _ _ _ Hup). unfold try_except.
    rewrite process_validated by done. cbn [input display]. rewrite Hsend.
    rewrite display_display, Hrun. cbn [ui display]. by rewrite <- !app_assoc.
  - unfold groups. rewrite map_map. cbn. rewrite map_id. apply group_keys_sorted.
Qed.

End GroupProperties.

(** ** The alphabet of accepted addresses *)

Section AddressProperties.

Lemma count_char_app (c : ascii) (a b : string) :
  count_char c (a +:+ b) = count_char c a + count_char c b.
Proof.
  induction a as [|x a IH]; [done|].
  rewrite app_String. cbn [count_char]. rewrite IH. lia.
Qed.

Lemma count_char_none (p : ascii → bool) (c : ascii) (s : string) :
  p c = false → all_chars p s = true → count_char c s = 0.
Proof.
  intros Hc. induction s as [|x s IH]; [done|]. cbn [all_chars count_char].
  intros [Hx Hs]%andb_true_iff. rewrite IH by done.
  destruct (Ascii.eqb_spec x c) as [->|]; [|done]. by rewrite Hc in Hx.
Qed.

Lemma all_chars_app (p : ascii → bool) (a b : string) :
  all_chars p (a +:+ b) = all_chars p a && all_chars p b.
Proof.
  induction a as [|x a IH]; [done|].
  rewrite app_String. cbn [all_chars]. rewrite IH. by rewrite andb_assoc.
Qed.

Lemma all_chars_weaken (p q : ascii → bool) (s : string) :
  (∀ c, p c = true → q c = true) → all_chars p s = true → all_chars q s = true.
Proof.
  intros Hpq. induction s as [|x s IH]; [done|]. cbn [all_chars].
  intros [Hx Hs]%andb_true_iff. by rewrite (Hpq x Hx), IH.
Qed.

Lemma local_is_address (c : ascii) : local_part_char c = true → address_char c = true.
Proof. destruct c as [[] [] [] [] [] [] [] []]; by vm_compute. Qed.

Lemma domain_is_address (c : ascii) : domain_char c = true → address_char c = true.
Proof. destruct c as [[] [] [] [] [] [] [] []]; by vm_compute. Qed.

Lemma alpha_is_address (c : ascii) : is_alpha c = true → address_char c = true.
Proof. destruct c as [[] [] [] [] [] [] [] []]; by vm_compute. Qed.

(** X19: an address the pattern accepts is, apart from a line feed it may
    end with, made only of letters, digits and the characters . _ % + - @,
    and holds exactly one @: no blank, comma, angle bracket, quote or
    inner line break gets through the check. *)
Theorem X19_accepted_address_alphabet (e : string) :
  Re.re_match email_pattern e = true →
  ∃ body,
    (e = body ∨ e = body +:+ nl) ∧
    all_chars address_char body = true ∧
    count_char "@" body = 1.
Proof.
  intros Hm. apply email_pattern_words in Hm.
  assert (∀ b, well_formed_email b →
               all_chars address_char b = true ∧ count_char "@" b = 1) as Hwf.
  { intros b (l & d & t & -> & _ & Hl & _ & Hd & _ & Ht). split.
    - rewrite !all_chars_app.
      rewrite (all_chars_weaken _ _ _ local_is_address Hl).
      rewrite (all_chars_weaken _ _ _ domain_is_address Hd).
      by rewrite (all_chars_weaken _ _ _ alpha_is_address Ht).
    - rewrite !count_char_app.
      rewrite (count_char_none local_part_char "@" l) by done.
      rewrite (count_char_none domain_char "@" d) by done.
      by rewrite (count_char_none is_alpha "@" t) by done. }
  destruct Hm as [Hb|(b & -> & Hb)].
  - exists e. split; [by left|]. by apply Hwf.
  - exists b. split; [by right|]. by apply Hwf.
Qed.

End AddressProperties.

(** ** Instances of the further properties on the sample data *)

Lemma X1_nothing_sent_without_send_click_witness :
  let s := Sample.start Sample.quiet (Some (Parsed Sample.three_students))
             ["Continue anyway"] in
  world (snd (script Sample.plain s)) = world s.
Proof. apply (X1_nothing_sent_without_send_click Sample.plain). reflexivity. Defined.

Lemma X2_unreadable_file_is_reported_witness :
  let s := Sample.start Sample.quiet (Some (Unreadable "No columns to parse from file"))
             ["Send Emails"] in
  script Sample.plain s =
    (Val tt, display s (banner ++ [st_error_processing "No columns to parse from file"])) ∧
  world (snd (script Sample.plain s)) = world s.
Proof.
  apply (X2_unreadable_file_is_reported Sample.plain "No columns to parse from file").
  reflexivity.
Defined.

Lemma X3_schema_error_names_the_missing_columns_witness :
  let s := Sample.start Sample.quiet (Some (Parsed Sample.no_grade_points))
             ["Send Emails"] in
  ∃ missing : gset string,
    script Sample.plain s =
      (Halt, display s (banner ++ preview Sample.no_grade_points ++
                        [totals Sample.no_grade_points; st_error_missing missing])) ∧
    missing ≠ ∅ ∧
    (∀ c, c ∈ missing ↔ c ∈ required_columns ∧ c ∉ columns Sample.no_grade_points) ∧
    world (snd (script Sample.plain s)) = world s.
Proof.
  apply (X3_schema_error_names_the_missing_columns Sample.plain Sample.no_grade_points).
  - reflexivity.
  - compute_done.
  - rewrite complete_no_missing. compute_done.
Defined.

Lemma X4_flagged_and_unconfirmed_stops_witness :
  let s := Sample.start Sample.quiet (Some (Parsed Sample.bad_address))
             ["Send Emails"] in
  script Sample.plain s =
    (Halt,
     display s (banner ++ preview Sample.bad_address ++
                [totals Sample.bad_address; st_warning "Invalid email addresses found:";
                 st_dataframe (flagged_pairs Sample.bad_address);
                 st_button "Continue anyway"])) ∧
  columns (flagged_pairs Sample.bad_address) = ["student_name"; "parent_email"] ∧
  length (rows (flagged_pairs Sample.bad_address)) = length (flagged Sample.bad_address) ∧
  world (snd (script Sample.plain s)) = world s.
Proof.
  apply (X4_flagged_and_unconfirmed_stops Sample.plain Sample.bad_address).
  - reflexivity.
  - apply complete_no_missing. compute_done.
  - repeat constructor; by eexists.
  - by vm_compute.
  - reflexivity.
Defined.

Lemma X5_flagged_file_needs_both_clicks_witness :
  let s := Sample.start Sample.quiet (Some (Parsed Sample.bad_address))
             ["Continue anyway"] in
  world (snd (script Sample.plain s)) = world s ∧
  fst (script Sample.plain s) =
    if clicked (input s) "Continue anyway" then Val tt else Halt.
Proof.
  apply (X5_flagged_file_needs_both_clicks Sample.plain Sample.bad_address).
  - reflexivity.
  - apply complete_no_missing. compute_done.
  - repeat constructor; by eexists.
  - by vm_compute.
  - right. reflexivity.
Defined.

Lemma X6_empty_address_is_a_processing_error_witness :
  let s := Sample.start Sample.quiet (Some (Parsed Sample.no_address))
             ["Continue anyway"; "Send Emails"] in
  script Sample.plain s =
    (Val tt,
     display s (banner ++ preview Sample.no_address ++
                [totals Sample.no_address;
                 st_error_processing "bad operand type for unary ~: 'float'"])) ∧
  world (snd (script Sample.plain s)) = world s.
Proof.
  apply (X6_empty_address_is_a_processing_error Sample.plain Sample.no_address).
  - reflexivity.
  - apply complete_no_missing. compute_done.
  - intros Ha. unfold addressed in Ha.
    apply Forall_cons_1 in Ha as [_ Ha]. apply Forall_cons_1 in Ha as [[e He] _].
    by vm_compute in He.
Defined.

Lemma X8_invalid_rows_selected_in_order_witness :
  let s := Sample.start Sample.quiet None [] in
  ∃ invalid,
    invalid_emails Sample.bad_address s = (Val invalid, s) ∧
    columns invalid = columns Sample.bad_address ∧
    rows invalid `sublist_of` rows Sample.bad_address ∧
    ∀ r, r ∈ rows invalid ↔
         r ∈ rows Sample.bad_address ∧
         ∃ e, value_at r "parent_email" = Str e ∧ Re.re_match email_pattern e = false.
Proof.
  apply (X8_invalid_rows_selected_in_order Sample.bad_address).
  - compute_done.
  - repeat constructor; by eexists.
Defined.

Lemma X10_missing_table_column_witness :
  let s := Sample.start Sample.quiet None [] in
  send_email Sample.plain (Str "bob@x.com") "Bob" Sample.no_grade s =
    (Val {| status := "error"; to_email := Str "bob@x.com";
            error := Some ("'" +:+ "Grade" +:+ "'") |},
     set_world s (count_message (world s))) ∧
  outbox (world (snd (send_email Sample.plain (Str "bob@x.com") "Bob" Sample.no_grade s)))
    = outbox (world s).
Proof.
  apply (X10_missing_table_column Sample.plain (Str "bob@x.com") "Bob" Sample.no_grade
           (Sample.start Sample.quiet None [])
           ["Course Code"; "Course Name"; "Month Year"]
           ["Grade Points"; "Credits"; "Result"] "Grade").
  - done.
  - reflexivity.
  - repeat constructor; compute_done.
  - compute_done.
Defined.

Lemma X11_no_rows_header_only_witness :
  let s := Sample.start Sample.quiet None [] in
  html_content Sample.plain "Bob" Sample.no_rows s =
    (Val (page_head "Bob" +:+
          table_row "th" ["Course Code"; "Course Name"; "Month Year"; "Grade";
                          "Grade Points"; "Credits"; "Result"] +:+
          nl +:+ indent 8 +:+ html_close), s).
Proof. apply (X11_no_rows_header_only Sample.plain "Bob" Sample.no_rows). reflexivity. Defined.


Lemma X13_report_accounts_for_every_group_witness :
  let s := Sample.start Sample.second_refused None [] in
  let grouped := groups Sample.three_students in
  ∃ (n : nat) (failures : list event) s2,
    send_emails_handler Sample.plain grouped s = (Val tt, s2) ∧
    ui s2 =
      ui s ++ st_progress_start :: loop_events (length grouped) 0 grouped ++
      st_success_sent n ::
      match failures with
      | [] => []
      | _ :: _ => st_error "Some emails failed to send:" :: failures
      end ∧
    Forall (λ e, ∃ to text, e = st_write_failed to text) failures ∧
    n + length failures = length grouped.
Proof.
  apply (X13_report_accounts_for_every_group Sample.plain).
  apply groups_student_group. compute_done.
Defined.

Lemma X14_progress_counts_up_witness :
  let s := Sample.start Sample.second_refused None [] in
  ∃ results s1,
    send_all Sample.plain (groups Sample.three_students) s = (Val results, s1) ∧
    progress_of (ui s1) = [(1, 3); (2, 3); (3, 3)].
Proof.
  cbn zeta.
  destruct (X14_progress_counts_up Sample.plain (groups Sample.three_students)
              (Sample.start Sample.second_refused None []))
    as (results & s1 & Hall & Hprog).
  - apply groups_student_group. compute_done.
  - exists results, s1. split; [exact Hall|]. rewrite Hprog. reflexivity.
Defined.

Lemma X15_warnings_only_for_ambiguous_groups_witness :
  let s := Sample.start Sample.quiet None [] in
  ∃ results s1,
    send_all Sample.plain (groups Sample.two_addresses) s = (Val results, s1) ∧
    warned_students (ui s1) = ["Carol"].
Proof.
  cbn zeta.
  destruct (X15_warnings_only_for_ambiguous_groups Sample.plain
              (groups Sample.two_addresses) (Sample.start Sample.quiet None []))
    as (results & s1 & Hall & Hwarn & _).
  - apply groups_student_group. compute_done.
  - exists results, s1. split; [exact Hall|]. rewrite Hwarn. by vm_compute.
Defined.

Lemma X16_groups_cover_the_named_rows_witness :
  let s := Sample.start Sample.quiet None [] in
  ∃ gs,
    groupby Sample.no_name "student_name" s = (Val gs, s) ∧
    concat (map (λ g, rows (snd g)) gs)
      ≡ₚ filter (λ r, is_Some (text_of (value_at r "student_name"))) (rows Sample.no_name) ∧
    Forall (λ g, rows (snd g) ≠ [] ∧
                 Forall (λ r, value_at r "student_name" = Str (fst g)) (rows (snd g)) ∧
                 rows (snd g) `sublist_of` rows Sample.no_name ∧
                 columns (snd g) = columns Sample.no_name) gs.
Proof. apply (X16_groups_cover_the_named_rows Sample.no_name). compute_done. Defined.

Lemma X17_unique_students_is_the_number_of_groups_witness :
  let s := Sample.start Sample.quiet None [] in
  ∃ names gs,
    getcol Sample.bob_alice "student_name" s = (Val names, s) ∧
    groupby Sample.bob_alice "student_name" s = (Val gs, s) ∧
    nunique names = length gs.
Proof.
  apply (X17_unique_students_is_the_number_of_groups Sample.bob_alice). compute_done.
Defined.

Lemma X18_confirmed_run_sends_to_every_group_witness :
  let s := Sample.start Sample.second_refused (Some (Parsed Sample.bad_address))
             ["Continue anyway"; "Send Emails"] in
  let df := Sample.bad_address in
  ∃ results w,
    script Sample.plain s =
      (Val tt,
       {| ui := ui s ++ banner ++ ready df ++
                st_progress_start ::
                loop_events (length (groups df)) 0 (groups df) ++ report results;
          world := w; input := input s |}) ∧
    map to_email results = map (λ g, first_email (snd g)) (groups df) ∧
    StronglySorted String.le (map fst (groups df)) ∧
    messages w = messages (world s) + length (groups df).
Proof.
  apply (X18_confirmed_run_sends_to_every_group Sample.plain Sample.bad_address).
  - reflexivity.
  - apply complete_no_missing. compute_done.
  - repeat constructor; by eexists.
  - right. reflexivity.
  - reflexivity.
Defined.

Lemma X19_accepted_address_alphabet_witness :
  ∃ body,
    ("a.b+c@mail.example.org" = body ∨ "a.b+c@mail.example.org" = body +:+ nl) ∧
    all_chars address_char body = true ∧
    count_char "@" body = 1.
Proof. apply (X19_accepted_address_alphabet "a.b+c@mail.example.org"). reflexivity. Defined.
